(** * main.py: the project generator, as a state-passing program

    The script creates or modifies a Git project under a directory: it makes
    sure the directory and a repository exist, asks a language model for the
    content of every listed file, writes what the stream returned, and
    commits.  Everything the script touches lives outside the process (file
    system, model service, [git]); the embedding below threads an explicit
    [world] through the calls and records every call in a log.

    Modelling boundary.
    - A Python [str] is the string of its UTF-8 bytes, and a file holds
      bytes.  Reading a file as text (line 83) decodes the bytes, which
      fails on bytes that are not UTF-8, and turns every line ending into a
      line feed ([decode_text]); writing a text (line 116) stores its bytes
      (POSIX: a line feed is written as it is).
    - A path is the list of its components from the root, and the disk maps
      such lists to what they hold.  The lists are compared as they are
      spelled: a component [..] is kept by [joinpath], as pathlib keeps it,
      but the disk does not follow it, and there are no links.  A statement
      that relates what is found at a path to what the script does there
      takes the path free of [..] ([dotdot_free]) where it needs it.
      [Path(path).resolve()] is done by the caller of
      [create_or_modify_project]: [project_path] is the resolved location.
    - Standard output takes any text: its encoding belongs to the
      environment.
    - The model service and [git] are parameters of the development: any
      function of the call history may answer.  Where a property depends
      on what [git] does to the disk, the assumption is a hypothesis of the
      theorem ([metadata_only], [init_makes_metadata]).

    The definitions come first: the data, the monad, the script, then the
    vocabulary used to describe a run and the concrete environments of the
    examples.  The lemmas and the theorems follow. *)

From stdpp Require Import base option list strings gmap.
From Stdlib Require Import ZArith Ascii.

(** ** Text *)

Definition nl : string := String (ascii_of_nat 10) EmptyString.

(** Python truth value of a [str]: only the empty string is falsy. *)
Definition truthy (s : string) : bool :=
  match s with
  | EmptyString => false
  | String _ _ => true
  end.

(** *** Text files: bytes and their decoding

    [open(p, "r", encoding="utf-8")] decodes strictly: the bytes must be
    well-formed UTF-8 (no overlong form, no surrogate, nothing above
    U+10FFFF), else [f.read()] raises [UnicodeDecodeError]. *)

Definition code (c : ascii) : N := N_of_ascii c.

Definition between (lo hi : N) (c : ascii) : bool :=
  (lo <=? code c)%N && (code c <=? hi)%N.

(** A continuation byte, [80..BF]. *)
Definition continuation (c : ascii) : bool := between 128 191 c.

(** The second byte of a three-byte form: [E0] takes [A0..BF] (shorter
    forms exist below), [ED] takes [80..9F] (surrogates lie above). *)
Definition second_of_three (a b : ascii) : bool :=
  if (code a =? 224)%N then between 160 191 b
  else if (code a =? 237)%N then between 128 159 b
  else continuation b.

(** The second byte of a four-byte form: [F0] takes [90..BF], [F4] takes
    [80..8F] (the last code point is U+10FFFF). *)
Definition second_of_four (a b : ascii) : bool :=
  if (code a =? 240)%N then between 144 191 b
  else if (code a =? 244)%N then between 128 143 b
  else continuation b.

Fixpoint utf8_valid (s : string) : bool :=
  match s with
  | EmptyString => true
  | String a s1 =>
      if between 0 127 a then utf8_valid s1
      else
        match s1 with
        | EmptyString => false
        | String b s2 =>
            if between 194 223 a then continuation b && utf8_valid s2
            else
              match s2 with
              | EmptyString => false
              | String c s3 =>
                  if between 224 239 a then
                    second_of_three a b && continuation c && utf8_valid s3
                  else
                    match s3 with
                    | EmptyString => false
                    | String d s4 =>
                        between 240 244 a && second_of_four a b
                        && continuation c && continuation d && utf8_valid s4
                    end
              end
        end
  end.

Definition line_feed : ascii := ascii_of_nat 10.
Definition carriage_return : ascii := ascii_of_nat 13.

(** Universal newlines ([newline=None], the default of [open]): on input,
    [CR LF] and a lone [CR] are read as one line feed. *)
Fixpoint universal_newlines (s : string) : string :=
  match s with
  | EmptyString => EmptyString
  | String c s' =>
      if Ascii.eqb c carriage_return then
        String line_feed
          match s' with
          | String c' s'' =>
              if Ascii.eqb c' line_feed then universal_newlines s''
              else universal_newlines s'
          | EmptyString => EmptyString
          end
      else String c (universal_newlines s')
  end.

(** What [f.read()] returns for a file that holds the bytes [c]; [None]
    when the decoding fails. *)
Definition decode_text (c : string) : option string :=
  if utf8_valid c then Some (universal_newlines c) else None.

Fixpoint join (sep : string) (l : list string) : string :=
  match l with
  | [] => EmptyString
  | [x] => x
  | x :: r => x +:+ sep +:+ join sep r
  end.

(** ** Paths (pathlib, POSIX flavour) *)

Abbreviation path := (list string).

Definition slash : ascii := ascii_of_nat 47.

(** [segments cur s] cuts [s] at every slash; [cur] is the segment being
    read. *)
Fixpoint segments (cur : string) (s : string) : list string :=
  match s with
  | EmptyString => [cur]
  | String c s' =>
      if Ascii.eqb c slash then cur :: segments EmptyString s'
      else segments (cur +:+ String c EmptyString) s'
  end.

Definition keep_segment (x : string) : bool :=
  truthy x && negb (String.eqb x ".").

(** Components of a path string: empty segments and [.] are dropped. *)
Definition parts (s : string) : list string :=
  List.filter keep_segment (segments EmptyString s).

Definition is_absolute (s : string) : bool :=
  match s with
  | String c _ => Ascii.eqb c slash
  | EmptyString => false
  end.

(** [project_path / file_path]: an absolute right operand replaces the
    left one; a component [..] stays in the path, as pathlib leaves it. *)
Definition joinpath (base : path) (s : string) : path :=
  if is_absolute s then parts s else base ++ parts s.

(** No component of the path is [..]: the path is spelled as the location
    it denotes. *)
Definition dotdot_free (p : path) : bool :=
  forallb (λ x, negb (String.eqb x "..")) p.

(** [p.parent]; the root is its own parent. *)
Definition parent (p : path) : path := removelast p.

(** [str(p)] of an absolute path. *)
Definition path_str (p : path) : string := "/" +:+ join "/" p.

(** ** The file system *)

Inductive node : Type :=
| Dir
| File (content : string).

#[global] Instance node_eq_dec : EqDecision node.
Proof. solve_decision. Defined.

Definition stat (d : gmap path node) (p : path) : option node :=
  match p with
  | [] => Some Dir
  | _ => d !! p
  end.

(** [Path.exists()] and [Path.is_dir()]. *)
Definition path_exists (d : gmap path node) (p : path) : bool :=
  match stat d p with
  | Some _ => true
  | None => false
  end.

Definition is_dir (d : gmap path node) (p : path) : bool :=
  match stat d p with
  | Some Dir => true
  | _ => false
  end.

(** Exceptions that leave the script. *)
Inductive exn : Type :=
| SystemExit (code : Z)
| FileExistsError (p : path)
| NotADirectoryError (p : path)
| IsADirectoryError (p : path)
| FileNotFoundError (p : path)
| UnicodeDecodeError
| CalledProcessError (argv : list string)
| OpenAIError.

(** [Path.mkdir(parents=True, exist_ok=True)] on [cur ++ rest], the
    components of [cur] being known directories: every missing component is
    created, top down; a component that is a regular file raises. *)
Fixpoint mkdir_from (cur : path) (rest : list string) (d : gmap path node)
  : exn + gmap path node :=
  match rest with
  | [] => inr d
  | x :: rest' =>
      let here := cur ++ [x] in
      match d !! here with
      | Some Dir => mkdir_from here rest' d
      | Some (File _) =>
          inl (match rest' with
               | [] => FileExistsError here
               | _ => NotADirectoryError (here ++ rest')
               end)
      | None => mkdir_from here rest' (<[here := Dir]> d)
      end
  end.

Definition mkdir_parents (d : gmap path node) (p : path) : exn + gmap path node :=
  mkdir_from [] p d.

(** [open(p, "r", encoding="utf-8").read()]. *)
Definition read_file (d : gmap path node) (p : path) : exn + string :=
  match stat d p with
  | Some (File c) =>
      match decode_text c with
      | Some s => inr s
      | None => inl UnicodeDecodeError
      end
  | Some Dir => inl (IsADirectoryError p)
  | None => inl (FileNotFoundError p)
  end.

(** [open(p, "w", encoding="utf-8").write(s)]: the file is created or
    truncated, and holds the bytes of [s]. *)
Definition write_file (d : gmap path node) (p : path) (s : string)
  : exn + gmap path node :=
  match stat d (parent p) with
  | Some Dir =>
      match stat d p with
      | Some Dir => inl (IsADirectoryError p)
      | _ => inr (<[p := File s]> d)
      end
  | Some (File _) => inl (NotADirectoryError p)
  | None => inl (FileNotFoundError p)
  end.

(** ** Calls to the outside, and the world they act on *)

Inductive event : Type :=
| EPrint (text : string)                 (* written to standard output *)
| EMkdir (p : path)                      (* [p.mkdir(parents=True, exist_ok=True)] done *)
| ERead (p : path)                       (* a file opened and read *)
| EWrite (p : path) (content : string)   (* a file opened for writing and written *)
| ERequest (model prompt : string)       (* [openai.ChatCompletion.create] called *)
| ERun (argv : list string) (cwd : path) (* [subprocess.run(argv, cwd=cwd, check=True)] called *).

Record world : Type := World { disk : gmap path node; log : list event }.

(** ** The streamed answer of the model service *)

(** The value under ["content"] of a delta, when the key is there. *)
Inductive pyval : Type :=
| PyNone
| PyStr (s : string).

Record delta : Type := Delta { content : option pyval }.
Record choice : Type := Choice { choice_delta : option delta }.
Record chunk : Type := Chunk { choices : option (list choice) }.

(** What the service does with one request: it refuses it, or it streams
    chunks and then either ends the stream or breaks it. *)
Inductive response : Type :=
| RequestFailed
| Stream (chunks : list chunk) (complete : bool).

(** Lines 108-110: the text taken from one chunk, [None] when the chunk is
    skipped. *)
Definition chunk_content (c : chunk) : option string :=
  match choices c with
  | Some (ch :: _) =>
      match choice_delta ch with
      | Some dl =>
          match content dl with
          | Some (PyStr s) => if truthy s then Some s else None
          | Some PyNone => None
          | None => None
          end
      | None => None
      end
  | Some [] => None
  | None => None
  end.

(** The text fragments of a stream, in arrival order, as line 109 reads
    them, and their concatenation. *)
Definition fragments (chunks : list chunk) : list string := omap chunk_content chunks.

Definition concat_text (l : list string) : string := foldr String.append EmptyString l.

(** Every string found under [choices[i].delta.content], for all [i]. *)
Definition choice_texts (ch : choice) : list string :=
  match choice_delta ch with
  | Some (Delta (Some (PyStr s))) => [s]
  | _ => []
  end.

Definition chunk_texts (c : chunk) : list string :=
  match choices c with
  | Some l => concat (map choice_texts l)
  | None => []
  end.

Definition all_texts (chunks : list chunk) : list string :=
  concat (map chunk_texts chunks).

(** A request for one completion (no [n] is passed at line 101) is answered
    by chunks of at most one choice. *)
Definition single_choice (c : chunk) : Prop :=
  match choices c with
  | Some (_ :: _ :: _) => False
  | _ => True
  end.

(** ** The monad of the script: state, log and exceptions *)

Inductive result (A : Type) : Type :=
| Ok (a : A)
| Raise (e : exn).
Arguments Ok {A} a.
Arguments Raise {A} e.

Definition M (A : Type) : Type := world → result A * world.

#[global] Instance M_ret : MRet M := λ A a w, (Ok a, w).

Definition bind {A B : Type} (m : M A) (f : A → M B) : M B := λ w,
  match m w with
  | (Ok a, w') => f a w'
  | (Raise e, w') => (Raise e, w')
  end.

#[global] Instance M_bind : MBind M := λ A B f m, bind m f.

Notation "'let*' x ':=' m 'in' k" := (bind m (λ x, k))
  (at level 10, x name, m at level 100, k at level 200).

Definition raise {A : Type} (e : exn) : M A := λ w, (Raise e, w).

Definition emit (e : event) : M unit :=
  λ w, (Ok tt, World (disk w) (log w ++ [e])).

Definition print_raw (s : string) : M unit := emit (EPrint s).
Definition print_line (s : string) : M unit := emit (EPrint (s +:+ nl)).

Definition py_exists (p : path) : M bool := λ w, (Ok (path_exists (disk w) p), w).
Definition py_is_dir (p : path) : M bool := λ w, (Ok (is_dir (disk w) p), w).

Definition py_mkdir (p : path) : M unit := λ w,
  match mkdir_parents (disk w) p with
  | inr d' => (Ok tt, World d' (log w ++ [EMkdir p]))
  | inl e => (Raise e, w)
  end.

(** The file is opened and read before its bytes are decoded. *)
Definition py_read (p : path) : M string := λ w,
  match read_file (disk w) p with
  | inr s => (Ok s, World (disk w) (log w ++ [ERead p]))
  | inl UnicodeDecodeError =>
      (Raise UnicodeDecodeError, World (disk w) (log w ++ [ERead p]))
  | inl e => (Raise e, w)
  end.

Definition py_write (p : path) (s : string) : M unit := λ w,
  match write_file (disk w) p s with
  | inr d' => (Ok tt, World d' (log w ++ [EWrite p s]))
  | inl e => (Raise e, w)
  end.

(** ** Prompt text (lines 86-95) *)

Inductive verb : Type := Create | Modify.

Definition verb_text (v : verb) : string :=
  match v with
  | Create => "创建"
  | Modify => "修改"
  end.

Definition hint_text (v : verb) : string :=
  match v with
  | Create => "请生成适合该文件路径的内容:"
  | Modify => "以下是现有文件内容，请在需要的地方进行修改:"
  end.

(** ['创建' if not existing_content else '修改'] *)
Definition action (existing_content : string) : verb :=
  if truthy existing_content then Modify else Create.

Definition prompt_text (project_type : string) (v : verb)
    (description file_path context : string) : string :=
  nl +:+ "你的任务是为一个" +:+ project_type +:+ "项目" +:+ verb_text v +:+ "文件。" +:+ nl
  +:+ nl
  +:+ "项目描述: " +:+ description +:+ nl
  +:+ "文件路径: " +:+ file_path +:+ nl
  +:+ nl
  +:+ hint_text v +:+ nl
  +:+ nl
  +:+ context +:+ nl.

Definition build_prompt (project_type description file_path existing_content : string)
  : string :=
  prompt_text project_type (action existing_content) description file_path
    existing_content.

(** ** The script *)

Definition not_a_directory_message (project_path : path) : string :=
  "错误：" +:+ path_str project_path +:+ " 不是一个目录".

Definition missing_key_message : string :=
  "错误：未找到OPENAI_API_KEY环境变量。请在.env文件中设置。".

Definition git_init : list string := ["git"; "init"].
Definition git_add : list string := ["git"; "add"; "."].
Definition git_commit (commit_message : string) : list string :=
  ["git"; "commit"; "-m"; commit_message].

Section Script.

(** The model service answers a request from the history of calls, the
    model name and the prompt. *)
Variable llm : list event → string → string → response.

(** [git argv] run in [cwd]: whether it exits with status zero, and the
    file system it leaves. *)
Variable git : list event → list string → path → gmap path node → bool * gmap path node.

(** [subprocess.run(argv, cwd=cwd, check=True)] *)
Definition run (argv : list string) (cwd : path) : M unit := λ w,
  let w' := World (git (log w) argv cwd (disk w)).2 (log w ++ [ERun argv cwd]) in
  if (git (log w) argv cwd (disk w)).1 then (Ok tt, w')
  else (Raise (CalledProcessError argv), w').

(** Lines 107-112: the loop over the chunks of the stream. *)
Fixpoint consume (chunks : list chunk) (new_content : string) : M string :=
  match chunks with
  | [] => mret new_content
  | c :: rest =>
      match chunk_content c with
      | Some s => print_raw s;; consume rest (new_content +:+ s)
      | None => consume rest new_content
      end
  end.

(** The iteration ends with the stream, or the broken stream raises. *)
Definition read_stream (chunks : list chunk) (complete : bool) : M string :=
  let* new_content := consume chunks EmptyString in
  if complete then mret new_content else raise OpenAIError.

(** Lines 100-112: the request and the consumption of its stream. *)
Definition stream_completion (model prompt : string) : M string := λ w,
  let w1 := World (disk w) (log w ++ [ERequest model prompt]) in
  match llm (log w) model prompt with
  | RequestFailed => (Raise OpenAIError, w1)
  | Stream chunks complete => read_stream chunks complete w1
  end.

(** Lines 79-83. *)
Definition load_existing (full_path : path) : M string :=
  let* present := py_exists full_path in
  if present then py_read full_path else mret EmptyString.

(** Lines 74-118: the body of the loop over [files]. *)
Definition generate_file (project_path : path)
    (project_type description model file_path : string) : M unit :=
  let full_path := joinpath project_path file_path in
  py_mkdir (parent full_path);;
  let* existing_content := load_existing full_path in
  let prompt := build_prompt project_type description file_path existing_content in
  print_line (nl +:+ verb_text (action existing_content) +:+ " " +:+ file_path +:+ " 中...");;
  let* new_content := stream_completion model prompt in
  py_write full_path new_content;;
  print_line (nl +:+ file_path +:+ " " +:+ verb_text (action existing_content) +:+ "完成").

(** Line 73: [for file_path in files]. *)
Fixpoint generate_files (project_path : path)
    (project_type description model : string) (files : list string) : M unit :=
  match files with
  | [] => mret tt
  | file_path :: rest =>
      generate_file project_path project_type description model file_path;;
      generate_files project_path project_type description model rest
  end.

(** Lines 56-65: [Some is_new_project], or [None] when the function
    returns at line 65. *)
Definition prepare_directory (project_path : path) : M (option bool) :=
  let* present := py_exists project_path in
  if negb present then
    print_line ("创建项目目录: " +:+ path_str project_path);;
    py_mkdir project_path;;
    mret (Some true)
  else
    let* isdir := py_is_dir project_path in
    if negb isdir then
      print_line (not_a_directory_message project_path);;
      mret None
    else mret (Some false).

(** Lines 67-70. *)
Definition ensure_repository (project_path : path) (is_new_project : bool) : M unit :=
  let* has_git := py_exists (project_path ++ [".git"]) in
  if is_new_project || negb has_git then
    print_line "初始化Git仓库...";;
    run git_init project_path
  else mret tt.

(** Lines 120-123. *)
Definition commit_all (project_path : path) (commit_message : string) : M unit :=
  print_line (nl +:+ "添加文件到Git并提交...");;
  run git_add project_path;;
  run (git_commit commit_message) project_path.

Definition create_or_modify_project (project_path : path)
    (project_type description : string) (files : list string)
    (commit_message model : string) : M unit :=
  let* prepared := prepare_directory project_path in
  match prepared with
  | None => mret tt
  | Some is_new_project =>
      ensure_repository project_path is_new_project;;
      generate_files project_path project_type description model files;;
      commit_all project_path commit_message;;
      print_line (nl +:+ "项目" +:+ (if is_new_project then "创建" else "修改")
                  +:+ "完成并已提交到Git仓库!")
  end.

(** The parsed command line (lines 130-139). *)
Record args : Type := Args {
  arg_path : path;
  arg_type : string;
  arg_description : string;
  arg_files : list string;
  arg_message : string;
  arg_model : string
}.

Definition main (a : args) : M unit :=
  create_or_modify_project (arg_path a) (arg_type a) (arg_description a)
    (arg_files a) (arg_message a) (arg_model a).

(** [not OPENAI_API_KEY], on the value of [os.getenv]. *)
Definition key_missing (key : option string) : bool :=
  match key with
  | None => true
  | Some s => negb (truthy s)
  end.

(** The module as it is run: lines 27-32, then [main()]. *)
Definition script (OPENAI_API_KEY : option string) (a : args) : M unit :=
  if key_missing OPENAI_API_KEY then
    print_line missing_key_message;;
    raise (SystemExit 1)
  else main a.

End Script.

(** Exit status of the process for an outcome of [script]. *)
Definition exit_status (r : result unit) : Z :=
  match r with
  | Ok _ => 0
  | Raise (SystemExit code) => code
  | Raise _ => 1
  end.

(** ** Describing a run *)

(** What a call changed outside the process: a file written, a command
    run. *)
Inductive effect : Type :=
| Wrote (p : path)
| Ran (argv : list string) (cwd : path).

Definition effect_of (e : event) : option effect :=
  match e with
  | EWrite p _ => Some (Wrote p)
  | ERun argv cwd => Some (Ran argv cwd)
  | _ => None
  end.

Definition effects (l : list event) : list effect := omap effect_of l.

Definition request_of (e : event) : option (string * string) :=
  match e with
  | ERequest model prompt => Some (model, prompt)
  | _ => None
  end.

Definition requests (l : list event) : list (string * string) := omap request_of l.

(** The events a computation adds to the log. *)
Definition trace {A : Type} (m : M A) (w : world) : list event :=
  drop (length (log w)) (log (m w).2).

(** Number of times the command [argv] was run. *)
Definition runs_of (argv : list string) (l : list effect) : nat :=
  length (List.filter (λ e, match e with
                            | Ran a _ => bool_decide (a = argv)
                            | Wrote _ => false
                            end) l).

(** [event_within T e]: the event [e] concerns the file-system only at the
    paths of [T] (and the parents of these, for [mkdir]), and is no
    command. *)
Definition event_within (T : list path) (e : event) : Prop :=
  match e with
  | EWrite q _ => q ∈ T
  | ERead q => q ∈ T
  | EMkdir q => ∃ t, t ∈ T ∧ q = parent t
  | ERun _ _ => False
  | EPrint _ => True
  | ERequest _ _ => True
  end.

(** [touches T d d']: from [d] to [d'] nothing was removed, only the
    paths of [T] were (over)written with a file, and the only other new
    entries are directories leading to a path of [T]. *)
Definition touches (T : list path) (d d' : gmap path node) : Prop :=
  (∀ q n, d !! q = Some n →
     d' !! q = Some n ∨ (q ∈ T ∧ ∃ s, d' !! q = Some (File s))) ∧
  (∀ q n, d' !! q = Some n →
     d !! q = Some n ∨ (q ∈ T ∧ ∃ s, n = File s) ∨
     (n = Dir ∧ q ≠ [] ∧ ∃ t, t ∈ T ∧ q `prefix_of` parent t)).


(** The locations the loop is asked to write. *)
Definition targets (project_path : path) (files : list string) : list path :=
  map (joinpath project_path) files.

(** The writes and commands of a run that nothing interrupts, in order. *)
Definition loop_then_commit (project_path : path) (files : list string)
    (commit_message : string) : list effect :=
  map Wrote (targets project_path files)
    ++ [Ran git_add project_path; Ran (git_commit commit_message) project_path].

Definition planned_effects (project_path : path) (files : list string)
    (commit_message : string) (init : bool) : list effect :=
  (if init then [Ran git_init project_path] else [])
    ++ loop_then_commit project_path files commit_message.

(** Whether a run from disk [d] gets to run [git init]: the directory was
    just made, or it was there without metadata. *)
Definition init_expected (project_path : path) (d : gmap path node) : bool :=
  match stat d project_path with
  | None =>
      match mkdir_parents d project_path with
      | inr _ => true
      | inl _ => false
      end
  | Some Dir => negb (path_exists d (project_path ++ [".git"]))
  | Some (File _) => false
  end.

(** Whether lines 80-83 get through, [o] being what is found at the path
    of the file: there is nothing to read, or a file whose bytes decode. *)
Definition readable (o : option node) : bool :=
  match o with
  | Some (File c) => utf8_valid c
  | Some Dir => false
  | None => true
  end.

(** What lines 80-83 then leave in [existing_content]. *)
Definition prior_content (o : option node) : string :=
  match o with
  | Some (File c) => universal_newlines c
  | _ => EmptyString
  end.

(** The log when the request of a turn is about to be made; [o] is what was
    found at the path of the file. *)
Definition log_before_request (project_path : path) (file_path : string)
    (w : world) (o : option node) : list event :=
  log w ++ [EMkdir (parent (joinpath project_path file_path))]
    ++ match o with
       | Some _ => [ERead (joinpath project_path file_path)]
       | None => []
       end
    ++ [EPrint ((nl +:+ verb_text (action (prior_content o)) +:+ " " +:+ file_path
                 +:+ " 中...") +:+ nl)].

(** The log when the stream of a turn has been read. *)
Definition log_after_stream (project_path : path)
    (project_type description model file_path : string)
    (w : world) (o : option node) (chunks : list chunk) : list event :=
  log_before_request project_path file_path w o
    ++ [ERequest model (build_prompt project_type description file_path (prior_content o))]
    ++ map EPrint (fragments chunks).

(** [signals v prompt]: the prompt for this file is the one with verb [v]. *)
Definition signals (project_type description file_path : string) (v : verb)
    (prompt : string) : Prop :=
  ∃ context, prompt = prompt_text project_type v description file_path context.

(** ** The function, step by step *)

Section Steps.
Variable llm : list event → string → string → response.
Variable git : list event → list string → path → gmap path node → bool * gmap path node.

(** Lines 99-118, once [existing_content] is known: [d1] is the disk
    after line 77, [o] what is found at the path of the file. *)
Definition after_request (project_path : path)
    (project_type description model file_path : string)
    (w : world) (d1 : gmap path node) (o : option node) : result unit * world :=
  let prompt := build_prompt project_type description file_path (prior_content o) in
  match llm (log_before_request project_path file_path w o) model prompt with
  | RequestFailed =>
      (Raise OpenAIError,
       World d1 (log_before_request project_path file_path w o ++ [ERequest model prompt]))
  | Stream chunks false =>
      (Raise OpenAIError,
       World d1 (log_after_stream project_path project_type description model file_path
                   w o chunks))
  | Stream chunks true =>
      let new_content := concat_text (fragments chunks) in
      (Ok tt,
       World (<[joinpath project_path file_path := File new_content]> d1)
         (log_after_stream project_path project_type description model file_path w o chunks
            ++ [EWrite (joinpath project_path file_path) new_content;
                EPrint ((nl +:+ file_path +:+ " "
                         +:+ verb_text (action (prior_content o))
                         +:+ "完成") +:+ nl)]))
  end.

(** Lines 54-70: the directory and the repository. *)
Definition setup_project (project_path : path) : M (option bool) :=
  let* prepared := prepare_directory project_path in
  match prepared with
  | None => mret None
  | Some is_new_project =>
      ensure_repository git project_path is_new_project;;
      mret (Some is_new_project)
  end.

(** Lines 72-125: the loop, the commit and the last message. *)
Definition after_repository (project_path : path) (project_type description : string)
    (files : list string) (commit_message model : string) (is_new_project : bool)
  : M unit :=
  generate_files llm project_path project_type description model files;;
  commit_all git project_path commit_message;;
  print_line (nl +:+ "项目" +:+ (if is_new_project then "创建" else "修改")
              +:+ "完成并已提交到Git仓库!").

(** Lines 67-125: what the function does once the directory is there. *)
Definition from_repository (project_path : path) (project_type description : string)
    (files : list string) (commit_message model : string) (is_new_project : bool)
  : M unit :=
  ensure_repository git project_path is_new_project;;
  after_repository project_path project_type description files commit_message model
    is_new_project.

End Steps.

(** ** What is assumed of [git] *)

(** [git] changes nothing outside the [.git] entry of its working
    directory. *)
Definition metadata_only
    (git : list event → list string → path → gmap path node → bool * gmap path node)
  : Prop :=
  ∀ h argv cwd d q,
    ¬ (cwd ++ [".git"]) `prefix_of` q → (git h argv cwd d).2 !! q = d !! q.

(** A [git init] that exits with status zero leaves a [.git] entry. *)
Definition init_makes_metadata
    (git : list event → list string → path → gmap path node → bool * gmap path node)
  : Prop :=
  ∀ h cwd d,
    (git h git_init cwd d).1 = true →
    is_Some ((git h git_init cwd d).2 !! (cwd ++ [".git"])).

(** ** Concrete environments and disks *)

Definition text_chunk (s : string) : chunk :=
  Chunk (Some [Choice (Some (Delta (Some (PyStr s))))]).

(** A service that answers every request with the same three chunks. *)
Definition hello_llm : list event → string → string → response :=
  λ _ _ _, Stream [text_chunk EmptyString; text_chunk "print("; text_chunk "1)";
                   Chunk (Some [Choice (Some (Delta None))])] true.

(** A [git] that always succeeds; [init] makes the metadata directory. *)
Definition plain_git : list event → list string → path → gmap path node
    → bool * gmap path node :=
  λ _ argv cwd d,
    if bool_decide (argv = git_init) then (true, <[cwd ++ [".git"] := Dir]> d)
    else (true, d).

(** The same, but [git commit] exits with a non-zero status. *)
Definition commit_fails_git : list event → list string → path → gmap path node
    → bool * gmap path node :=
  λ _ argv cwd d,
    if bool_decide (argv = git_init) then (true, <[cwd ++ [".git"] := Dir]> d)
    else if bool_decide (argv = git_add) then (true, d)
    else (false, d).

(** A service that answers the first request and refuses the next ones. *)
Definition second_fails_llm : list event → string → string → response :=
  λ h _ _,
    match requests h with
    | [] => Stream [text_chunk "x = 1"] true
    | _ :: _ => RequestFailed
    end.

Definition demo_args : args :=
  Args ["work"; "demo"] "python" "a single hello-world script" ["main.py"] "init"
    "gpt-4-turbo-preview".

(** A disk where the target path is a regular file. *)
Definition disk_with_file : gmap path node :=
  <[["work"; "demo"] := File "notes"]> (<[["work"] := Dir]> ∅).

(** The project directory, already under version control, with one file
    that is empty and one that is not. *)
Definition versioned_disk : gmap path node :=
  <[["work"; "demo"; "notes.md"] := File "draft"]>
    (<[["work"; "demo"; "main.py"] := File EmptyString]>
       (<[["work"; "demo"; ".git"] := Dir]>
          (<[["work"; "demo"] := Dir]> (<[["work"] := Dir]> ∅)))).

(** The worlds of a run on three files whose second request is refused. *)
Definition fresh : world := World ∅ [].

Definition after_setup : world := (setup_project plain_git ["work"; "demo"] fresh).2.

Definition after_first : world :=
  (generate_files second_fails_llm ["work"; "demo"] "python" "a script"
     "gpt-4-turbo-preview" ["a.py"] after_setup).2.

Definition after_second : world :=
  (generate_file second_fails_llm ["work"; "demo"] "python" "a script"
     "gpt-4-turbo-preview" "b.py" after_first).2.

(** The worlds of a run on one file whose commit fails. *)
Definition after_setup' : world :=
  (setup_project commit_fails_git ["work"; "demo"] fresh).2.

Definition after_loop' : world :=
  (generate_files hello_llm ["work"; "demo"] "python" "a script"
     "gpt-4-turbo-preview" ["a.py"] after_setup').2.

(** ** More vocabulary and environments *)

(** The texts written to standard output. *)
Definition print_of (e : event) : option string :=
  match e with
  | EPrint s => Some s
  | _ => None
  end.

Definition printed (l : list event) : list string := omap print_of l.

(** Text that the universal-newline reading of line 83 returns as it was
    written at line 116: no carriage return in it. *)
Fixpoint no_carriage_return (s : string) : bool :=
  match s with
  | EmptyString => true
  | String c s' => negb (Ascii.eqb c (ascii_of_nat 13)) && no_carriage_return s'
  end.

(** A service whose stream breaks after two fragments. *)
Definition broken_llm : list event → string → string → response :=
  λ _ _ _, Stream [text_chunk "import "; text_chunk "os"] false.

(** Bytes that are no UTF-8 text (the first bytes of a PNG image), and a
    text with a Windows line ending. *)
Definition not_text : string := String (ascii_of_nat 137) "PNG".

Definition crlf_text : string :=
  "a" +:+ String carriage_return (String line_feed "b").

(** The disk of the project with a file of each kind added. *)
Definition binary_disk : gmap path node :=
  <[["work"; "demo"; "logo.png"] := File not_text]>
    (<[["work"; "demo"; "run.bat"] := File crlf_text]> versioned_disk).

(** A [git] whose [init] exits with a non-zero status. *)
Definition init_fails_git : list event → list string → path → gmap path node
    → bool * gmap path node :=
  λ _ argv cwd d,
    if bool_decide (argv = git_init) then (false, d) else (true, d).

(** A [git] whose [add] exits with a non-zero status. *)
Definition add_fails_git : list event → list string → path → gmap path node
    → bool * gmap path node :=
  λ _ argv cwd d,
    if bool_decide (argv = git_init) then (true, <[cwd ++ [".git"] := Dir]> d)
    else if bool_decide (argv = git_add) then (false, d)
    else (true, d).

(** A disk where [/work] is a regular file. *)
Definition blocked_disk : gmap path node := <[["work"] := File "x"]> ∅.

(** * Lemmas *)

(** ** Paths *)

Example parts_ex : parts "src//./app/main.py" = ["src"; "app"; "main.py"].
Proof. reflexivity. Qed.

Example joinpath_ex : joinpath ["tmp"; "demo"] "src/main.py" = ["tmp"; "demo"; "src"; "main.py"].
Proof. reflexivity. Qed.

Example mkdir_ex :
  mkdir_parents ∅ ["tmp"; "demo"] = inr (<[["tmp"; "demo"] := Dir]> (<[["tmp"] := Dir]> ∅)).
Proof. reflexivity. Qed.

(** ** Text *)

Lemma append_cons (c : ascii) (s t : string) : String c s +:+ t = String c (s +:+ t).
Proof. reflexivity. Qed.

Lemma append_nil_l (s : string) : EmptyString +:+ s = s.
Proof. reflexivity. Qed.

Lemma append_nil_r (s : string) : s +:+ EmptyString = s.
Proof. induction s as [|c s IH]; [done | by rewrite append_cons, IH]. Qed.

Lemma append_assoc (s t u : string) : (s +:+ t) +:+ u = s +:+ (t +:+ u).
Proof. induction s as [|c s IH]; [done | by rewrite !append_cons, IH]. Qed.

Lemma append_inv_head (s a b : string) : s +:+ a = s +:+ b → a = b.
Proof.
  induction s as [|c s IH]; [done|]. rewrite !append_cons. intros [=]. auto.
Qed.

(** The decoder accepts the text of the script's own messages and refuses
    a stray byte, a form cut short, an overlong form, a surrogate and a
    code point above U+10FFFF. *)
Example utf8_valid_ex :
  utf8_valid "创建 main.py 中..." = true
  ∧ utf8_valid not_text = false
  ∧ utf8_valid (String (ascii_of_nat 226) (String (ascii_of_nat 130) EmptyString)) = false
  ∧ utf8_valid (String (ascii_of_nat 192) (String (ascii_of_nat 128) EmptyString)) = false
  ∧ utf8_valid (String (ascii_of_nat 237) (String (ascii_of_nat 160)
                  (String (ascii_of_nat 128) EmptyString))) = false
  ∧ utf8_valid (String (ascii_of_nat 244) (String (ascii_of_nat 144)
                  (String (ascii_of_nat 128) (String (ascii_of_nat 128) EmptyString))))
    = false.
Proof. repeat split; reflexivity. Qed.

Example universal_newlines_ex :
  universal_newlines crlf_text = "a" +:+ nl +:+ "b"
  ∧ universal_newlines (String carriage_return (String carriage_return nl)) = nl +:+ nl.
Proof. split; reflexivity. Qed.

Lemma universal_newlines_empty (s : string) :
  universal_newlines s = EmptyString ↔ s = EmptyString.
Proof.
  split; [|by intros ->]. destruct s as [|c s]; [done|]. simpl.
  by destruct (Ascii.eqb c carriage_return).
Qed.

Lemma universal_newlines_plain (s : string) :
  no_carriage_return s = true → universal_newlines s = s.
Proof.
  induction s as [|c s IH]; simpl; [done|].
  intros [Hc Hs]%andb_true_iff. unfold carriage_return.
  destruct (Ascii.eqb c (ascii_of_nat 13)); [done|]. by rewrite IH.
Qed.

Lemma decode_text_plain (s : string) :
  utf8_valid s = true → no_carriage_return s = true → decode_text s = Some s.
Proof.
  intros Hv Hcr. unfold decode_text. by rewrite Hv, universal_newlines_plain.
Qed.

Lemma truthy_false (s : string) : truthy s = false ↔ s = EmptyString.
Proof. destruct s; simpl; split; congruence. Qed.

Lemma truthy_true (s : string) : truthy s = true ↔ s ≠ EmptyString.
Proof. destruct s; simpl; split; congruence. Qed.

(** ** The file system *)

Section FileSystem.
Implicit Types (d : gmap path node) (p q cur : path) (n : node).

Lemma prefix_step cur x rest q :
  q `prefix_of` cur ++ x :: rest → length cur < length q →
  q = cur ++ [x] ∨
  (q `prefix_of` (cur ++ [x]) ++ rest ∧ length (cur ++ [x]) < length q).
Proof.
  intros [k Hk] Hlen.
  assert (Hq : q = cur ++ drop (length cur) q).
  { rewrite <- (take_drop (length cur) q) at 1. f_equal.
    apply (f_equal (take (length cur))) in Hk.
    rewrite take_app_length in Hk. rewrite take_app_le in Hk by lia. done. }
  destruct (drop (length cur) q) as [|y t] eqn:Hd.
  { apply (f_equal length) in Hq. rewrite length_app in Hq. simpl in Hq. lia. }
  rewrite Hq in Hk. rewrite <- app_assoc in Hk.
  apply app_inv_head in Hk. simpl in Hk. injection Hk as -> Ht.
  destruct t as [|z t].
  - left. done.
  - right. split.
    + exists k. rewrite Hq, Ht. rewrite <- !app_assoc. done.
    + rewrite Hq. rewrite !length_app. simpl. lia.
Qed.

Lemma mkdir_from_spec rest : ∀ cur d d',
  mkdir_from cur rest d = inr d' →
  (∀ q n, d !! q = Some n → d' !! q = Some n) ∧
  (∀ q n, d' !! q = Some n →
     d !! q = Some n ∨ (n = Dir ∧ q `prefix_of` cur ++ rest ∧ length cur < length q)) ∧
  (∀ q, q `prefix_of` cur ++ rest → length cur < length q → d' !! q = Some Dir).
Proof.
  induction rest as [|x rest IH]; intros cur d d' H; simpl in H.
  - injection H as <-. split_and!; [done | by left |].
    intros q [k Hk] Hlen. rewrite app_nil_r in Hk.
    apply (f_equal length) in Hk. rewrite length_app in Hk. lia.
  - destruct (d !! (cur ++ [x])) as [[|c]|] eqn:Hhere; [| done |].
    + destruct (IH _ _ _ H) as (K & N & D). split_and!.
      * done.
      * intros q n Hq. destruct (N q n Hq) as [?|(-> & Hp & Hl)]; [by left|].
        right. split_and!; [done | by rewrite <- app_assoc in Hp |].
        rewrite length_app in Hl. simpl in Hl. lia.
      * intros q Hp Hl. destruct (prefix_step _ _ _ _ Hp Hl) as [->|[Hp' Hl']].
        -- by apply K.
        -- by apply D.
    + destruct (IH _ _ _ H) as (K & N & D). split_and!.
      * intros q n Hq. apply K. rewrite lookup_insert_ne; [done|].
        intros <-. rewrite Hhere in Hq. done.
      * intros q n Hq. destruct (N q n Hq) as [Hq'|(-> & Hp & Hl)].
        -- destruct (decide (cur ++ [x] = q)) as [<-|Hne].
           ++ rewrite lookup_insert_eq in Hq'. injection Hq' as <-.
              right. split_and!; [done | |].
              ** exists rest. by rewrite <- app_assoc.
              ** rewrite length_app. simpl. lia.
           ++ rewrite lookup_insert_ne in Hq' by done. by left.
        -- right. split_and!; [done | by rewrite <- app_assoc in Hp |].
           rewrite length_app in Hl. simpl in Hl. lia.
      * intros q Hp Hl. destruct (prefix_step _ _ _ _ Hp Hl) as [->|[Hp' Hl']].
        -- apply K. by rewrite lookup_insert_eq.
        -- by apply D.
Qed.

(** [mkdir] raises exactly when a component of the path is a regular
    file. *)
Lemma mkdir_from_total rest : ∀ cur d,
  (∀ q c, q `prefix_of` cur ++ rest → length cur < length q → d !! q ≠ Some (File c)) →
  ∃ d', mkdir_from cur rest d = inr d'.
Proof.
  induction rest as [|x rest IH]; intros cur d Hfree; simpl; [by eexists|].
  assert (Hhere : (cur ++ [x]) `prefix_of` cur ++ x :: rest).
  { exists rest. by rewrite <- app_assoc. }
  assert (Hlen : length cur < length (cur ++ [x])).
  { rewrite length_app. simpl. lia. }
  destruct (d !! (cur ++ [x])) as [[|c]|] eqn:Hd.
  - apply IH. intros q c Hp Hl. apply Hfree.
    + by rewrite <- app_assoc in Hp.
    + lia.
  - by destruct (Hfree _ c Hhere Hlen).
  - apply IH. intros q c Hp Hl.
    rewrite lookup_insert_ne.
    + apply Hfree; [by rewrite <- app_assoc in Hp | lia].
    + intros <-. lia.
Qed.

Lemma mkdir_parents_keeps d p d' q n :
  mkdir_parents d p = inr d' → d !! q = Some n → d' !! q = Some n.
Proof. intros H. by apply (mkdir_from_spec _ _ _ _ H). Qed.

Lemma mkdir_parents_new d p d' q n :
  mkdir_parents d p = inr d' → d' !! q = Some n →
  d !! q = Some n ∨ (n = Dir ∧ q `prefix_of` p ∧ q ≠ []).
Proof.
  intros H Hq. destruct (mkdir_from_spec _ _ _ _ H) as (_ & N & _).
  destruct (N q n Hq) as [?|(-> & Hp & Hl)]; [by left|]. right.
  split_and!; [done | done |]. intros ->. simpl in Hl. lia.
Qed.

Lemma mkdir_parents_made d p d' q :
  mkdir_parents d p = inr d' → q `prefix_of` p → is_dir d' q = true.
Proof.
  intros H Hp. unfold is_dir, stat. destruct q as [|x q]; [done|].
  destruct (mkdir_from_spec _ _ _ _ H) as (_ & _ & D).
  rewrite (D (x :: q)); [done | done | simpl; lia].
Qed.

Lemma mkdir_parents_total d p :
  (∀ q c, q `prefix_of` p → d !! q ≠ Some (File c)) →
  ∃ d', mkdir_parents d p = inr d'.
Proof. intros H. apply mkdir_from_total. intros q c Hp _. by apply H. Qed.

Lemma mkdir_parents_stat d p d' q n :
  mkdir_parents d p = inr d' → stat d q = Some n → stat d' q = Some n.
Proof.
  destruct q; simpl; [done|]. apply mkdir_parents_keeps.
Qed.

Lemma parent_length p : length (parent p) = pred (length p).
Proof.
  unfold parent. rewrite removelast_firstn_len, length_take. lia.
Qed.

(** Making the parent of [q] does not touch what is at [q]. *)
Lemma mkdir_parent_stat d q d' :
  mkdir_parents d (parent q) = inr d' → stat d' q = stat d q.
Proof.
  intros H. destruct q as [|x q]; [done|]. unfold stat.
  destruct (d !! (x :: q)) as [n|] eqn:Hq.
  - by apply (mkdir_parents_keeps _ _ _ _ _ H).
  - destruct (d' !! (x :: q)) as [n|] eqn:Hq'; [|done].
    destruct (mkdir_parents_new _ _ _ _ _ H Hq') as [?|(_ & [k Hk] & _)]; [congruence|].
    apply (f_equal length) in Hk. rewrite length_app, parent_length in Hk.
    simpl in Hk. lia.
Qed.

End FileSystem.

(** ** The stream *)

Lemma concat_text_app (l1 l2 : list string) :
  concat_text (l1 ++ l2) = concat_text l1 +:+ concat_text l2.
Proof.
  induction l1 as [|s l1 IH]; simpl; [done|].
  by rewrite IH, append_assoc.
Qed.

Lemma chunk_content_texts (c : chunk) :
  single_choice c →
  concat_text (chunk_texts c) = concat_text (option_list (chunk_content c)).
Proof.
  destruct c as [[[|[[[[[|s]|]]|]] [|ch2 l]]|]];
    unfold single_choice, chunk_content, chunk_texts, choice_texts; simpl; try done.
  destruct s; simpl; done.
Qed.

(** Reading the first choice of every chunk loses no text when chunks have
    one choice. *)
Lemma fragments_all_texts (chunks : list chunk) :
  Forall single_choice chunks →
  concat_text (all_texts chunks) = concat_text (fragments chunks).
Proof.
  unfold all_texts, fragments.
  induction 1 as [|c chunks Hc _ IH]; simpl; [done|].
  rewrite concat_text_app, IH, (chunk_content_texts c Hc).
  destruct (chunk_content c); simpl; [|done].
  by rewrite append_nil_r.
Qed.

(** ** Reading the log *)

Lemma trace_of {A : Type} (m : M A) (w : world) (l : list event) :
  log (m w).2 = log w ++ l → trace m w = l.
Proof. unfold trace. intros ->. by rewrite drop_app_length. Qed.

Lemma touches_refl (T : list path) (d : gmap path node) : touches T d d.
Proof. split; intros q n H; by left. Qed.

Lemma touches_mono (T T' : list path) (d d' : gmap path node) :
  T ⊆ T' → touches T d d' → touches T' d d'.
Proof.
  intros Hsub [K N]. split.
  - intros q n Hq. destruct (K q n Hq) as [?|[? ?]]; [by left | right; auto].
  - intros q n Hq. destruct (N q n Hq) as [?|[[? ?]|(? & ? & t & ? & ?)]].
    + by left.
    + right; left; auto.
    + right; right. split_and!; [done | done |]. exists t. auto.
Qed.

Lemma touches_trans (T : list path) (d1 d2 d3 : gmap path node) :
  touches T d1 d2 → touches T d2 d3 → touches T d1 d3.
Proof.
  intros [K1 N1] [K2 N2]. split.
  - intros q n Hq. destruct (K1 q n Hq) as [H2|[HT [s Hs]]].
    + apply (K2 q n H2).
    + right. split; [done|]. destruct (K2 q _ Hs) as [?|[_ ?]]; eauto.
  - intros q n Hq. destruct (N2 q n Hq) as [H2|H2]; [|by right].
    apply (N1 q n H2).
Qed.

Lemma event_within_mono (T T' : list path) (e : event) :
  T ⊆ T' → event_within T e → event_within T' e.
Proof.
  intros Hsub. destruct e; simpl; auto.
  intros (t & ? & ?). exists t. auto.
Qed.

Section ScriptFacts.
Variable llm : list event → string → string → response.
Variable git : list event → list string → path → gmap path node → bool * gmap path node.

Lemma consume_spec chunks : ∀ acc w,
  consume chunks acc w =
    (Ok (acc +:+ concat_text (fragments chunks)),
     World (disk w) (log w ++ map EPrint (fragments chunks))).
Proof.
  induction chunks as [|c chunks IH]; intros acc w; simpl.
  - rewrite append_nil_r, app_nil_r. by destruct w.
  - unfold fragments; simpl. destruct (chunk_content c) as [s|]; simpl.
    + unfold mbind, M_bind, bind, print_raw, emit; simpl.
      rewrite IH; simpl. unfold fragments.
      by rewrite append_assoc, <- app_assoc.
    + apply IH.
Qed.

(** *** One turn of the loop, case by case *)

Section OneFile.
Variables (project_path : path) (project_type description model file_path : string).

Let full_path := joinpath project_path file_path.

Lemma generate_file_cases (w : world) :
  generate_file llm project_path project_type description model file_path w =
    match mkdir_parents (disk w) (parent full_path) with
    | inl e => (Raise e, w)
    | inr d1 =>
        match stat d1 full_path with
        | Some Dir =>
            (Raise (IsADirectoryError full_path),
             World d1 (log w ++ [EMkdir (parent full_path)]))
        | o =>
            if readable o then
              after_request llm project_path project_type description model file_path
                w d1 o
            else
              (Raise UnicodeDecodeError,
               World d1 (log w ++ [EMkdir (parent full_path); ERead full_path]))
        end
    end.
Proof.
  unfold generate_file, after_request. fold full_path.
  unfold mbind, M_bind, bind, py_mkdir.
  destruct (mkdir_parents (disk w) (parent full_path)) as [e|d1] eqn:Hmk; [done|].
  assert (Hpar : stat d1 (parent full_path) = Some Dir).
  { pose proof (mkdir_parents_made _ _ _ (parent full_path) Hmk) as Hd.
    unfold is_dir in Hd. specialize (Hd ltac:(done)).
    destruct (stat d1 (parent full_path)) as [[|c]|]; done. }
  unfold load_existing, bind, py_exists, path_exists, py_read, read_file; simpl.
  destruct (stat d1 full_path) as [[|c]|] eqn:Hst; simpl; rewrite ?Hst; simpl;
    [done | |].
  - unfold decode_text. destruct (utf8_valid c); simpl;
      [|by rewrite <- app_assoc].
    unfold print_line, emit, stream_completion; simpl.
    unfold log_before_request; simpl. rewrite <- !app_assoc; simpl.
    destruct (llm _ model _) as [|chunks [|]]; [done | |].
    + unfold read_stream, bind. rewrite consume_spec; simpl.
      unfold py_write, write_file; simpl. rewrite Hpar, Hst; simpl.
      unfold log_after_stream, log_before_request; simpl.
      by rewrite <- !app_assoc.
    + unfold read_stream, bind. rewrite consume_spec; simpl.
      unfold raise, log_after_stream, log_before_request; simpl.
      by rewrite <- !app_assoc.
  - unfold print_line, emit, stream_completion; simpl.
    unfold log_before_request; simpl. rewrite <- !app_assoc; simpl.
    destruct (llm _ model _) as [|chunks [|]]; [done | |].
    + unfold read_stream, bind. rewrite consume_spec; simpl.
      unfold py_write, write_file; simpl. rewrite Hpar, Hst; simpl.
      unfold log_after_stream, log_before_request; simpl.
      by rewrite <- !app_assoc.
    + unfold read_stream, bind. rewrite consume_spec; simpl.
      unfold raise, log_after_stream, log_before_request; simpl.
      by rewrite <- !app_assoc.
Qed.

(** One turn in all its outcomes: what it logs, and what it does to
    the disk. *)
Lemma generate_file_summary (w : world) :
  ∃ l,
    log (generate_file llm project_path project_type description model file_path w).2
      = log w ++ l
    ∧ Forall (event_within [full_path]) l
    ∧ touches [full_path] (disk w)
        (disk (generate_file llm project_path project_type description model
                 file_path w).2)
    ∧ effects l =
        match (generate_file llm project_path project_type description model
                 file_path w).1 with
        | Ok _ => [Wrote full_path]
        | Raise _ => []
        end.
Proof.
  rewrite generate_file_cases.
  destruct (mkdir_parents (disk w) (parent full_path)) as [e|d1] eqn:Hmk.
  { exists []. simpl. rewrite app_nil_r. split_and!; [done | done | apply touches_refl | done]. }
  assert (Hmkdir : event_within [full_path] (EMkdir (parent full_path))).
  { exists full_path. split; [apply list_elem_of_singleton|]; done. }
  assert (Hin : full_path ∈ [full_path]) by (by apply list_elem_of_singleton).
  assert (Ht1 : touches [full_path] (disk w) d1).
  { split.
    - intros q n Hq. left. by apply (mkdir_parents_keeps _ _ _ _ _ Hmk).
    - intros q n Hq.
      destruct (mkdir_parents_new _ _ _ _ _ Hmk Hq) as [?|(-> & Hp & Hne)]; [by left|].
      right; right. split_and!; [done | done |]. by exists full_path. }
  assert (Ht2 : ∀ s, touches [full_path] (disk w) (<[full_path := File s]> d1)).
  { intros s. apply (touches_trans _ _ d1); [done|]. split.
    - intros q n Hq. destruct (decide (full_path = q)) as [<-|Hne].
      + right. split; [done|]. exists s. by rewrite lookup_insert_eq.
      + left. by rewrite lookup_insert_ne.
    - intros q n Hq. destruct (decide (full_path = q)) as [<-|Hne].
      + rewrite lookup_insert_eq in Hq. injection Hq as <-. right; left. eauto.
      + rewrite lookup_insert_ne in Hq by done. by left. }
  assert (Hpre : ∀ o, (o = None ∨ ∃ c, o = Some (File c)) →
            ∃ l0, log_before_request project_path file_path w o = log w ++ l0
                  ∧ Forall (event_within [full_path]) l0 ∧ effects l0 = []).
  { intros o Ho. unfold log_before_request. eexists. split; [done|].
    destruct Ho as [->|[c ->]]; simpl; split; [|done| |done];
      repeat (constructor; simpl; try done). }
  assert (Hreq : ∀ o, (o = None ∨ ∃ c, o = Some (File c)) →
    ∃ l,
      log (after_request llm project_path project_type description model file_path w d1 o).2 = log w ++ l
      ∧ Forall (event_within [full_path]) l
      ∧ touches [full_path] (disk w) (disk (after_request llm project_path project_type description model file_path w d1 o).2)
      ∧ effects l =
          match (after_request llm project_path project_type description model file_path w d1 o).1 with
          | Ok _ => [Wrote full_path]
          | Raise _ => []
          end).
  { intros o Ho. destruct (Hpre o Ho) as (l0 & Hl0 & Hw0 & He0).
    assert (Hprints : ∀ fs : list string,
              Forall (event_within [full_path]) (map EPrint fs) ∧ effects (map EPrint fs) = []).
    { induction fs as [|f fs [IH1 IH2]]; simpl; [done|]. split; [by constructor | done]. }
    unfold after_request.
    destruct (llm _ model _) as [|chunks [|]]; simpl.
    - exists (l0 ++ [ERequest model (build_prompt project_type description file_path
                                       (prior_content o))]).
      rewrite Hl0, <- app_assoc. split_and!; [done | | done |].
      + apply Forall_app. split; [done|]. by repeat constructor.
      + unfold effects. rewrite omap_app. fold (effects l0). by rewrite He0.
    - destruct (Hprints (fragments chunks)) as [Hp1 Hp2].
      eexists. unfold log_after_stream. rewrite Hl0, <- !app_assoc.
      split_and!; [done | | done |].
      + repeat (apply Forall_app; split); try done; by repeat constructor.
      + unfold effects. rewrite !omap_app. fold (effects l0).
        fold (effects (map EPrint (fragments chunks))). by rewrite He0, Hp2.
    - destruct (Hprints (fragments chunks)) as [Hp1 Hp2].
      eexists. unfold log_after_stream. rewrite Hl0, <- !app_assoc.
      split_and!; [done | | done |].
      + repeat (apply Forall_app; split); try done; by repeat constructor.
      + unfold effects. rewrite !omap_app. fold (effects l0).
        fold (effects (map EPrint (fragments chunks))). by rewrite He0, Hp2. }
  destruct (stat d1 full_path) as [[|c]|] eqn:Hst.
  - exists [EMkdir (parent full_path)]. simpl.
    split_and!; [done | by constructor | done | done].
  - simpl. destruct (utf8_valid c).
    + apply Hreq. right. by exists c.
    + exists [EMkdir (parent full_path); ERead full_path]. simpl.
      split_and!; [done | by repeat constructor | done | done].
  - apply Hreq. by left.
Qed.

End OneFile.

(** *** The loop *)

Section Loop.
Variables (project_path : path) (project_type description model : string).

Lemma generate_files_app (files1 files2 : list string) (w : world) :
  generate_files llm project_path project_type description model (files1 ++ files2) w =
    match generate_files llm project_path project_type description model files1 w with
    | (Ok _, w1) =>
        generate_files llm project_path project_type description model files2 w1
    | (Raise e, w1) => (Raise e, w1)
    end.
Proof.
  revert w. induction files1 as [|f files1 IH]; intros w; simpl; [done|].
  unfold mbind, M_bind, bind.
  destruct (generate_file llm project_path project_type description model f w)
    as [[[]|e] w1]; [apply IH | done].
Qed.

(** The turn of a file of the list starts in the world that the turns of
    the files before it have left. *)
Lemma generate_files_turn (done : list string) (file_path : string) (rest : list string)
    (w w1 : world) :
  generate_files llm project_path project_type description model done w = (Ok tt, w1) →
  generate_files llm project_path project_type description model
      (done ++ file_path :: rest) w =
    match generate_file llm project_path project_type description model file_path w1 with
    | (Ok _, w2) => generate_files llm project_path project_type description model rest w2
    | (Raise e, w2) => (Raise e, w2)
    end.
Proof. intros H. rewrite generate_files_app, H. reflexivity. Qed.

Lemma generate_files_summary (files : list string) : ∀ w : world,
  ∃ l,
    log (generate_files llm project_path project_type description model files w).2
      = log w ++ l
    ∧ Forall (event_within (targets project_path files)) l
    ∧ touches (targets project_path files) (disk w)
        (disk (generate_files llm project_path project_type description model
                 files w).2)
    ∧ match (generate_files llm project_path project_type description model
               files w).1 with
      | Ok _ => effects l = map Wrote (targets project_path files)
      | Raise _ =>
          ∃ k, k < length files ∧ effects l = take k (map Wrote (targets project_path files))
      end.
Proof.
  induction files as [|f files IH]; intros w; simpl.
  - exists []. rewrite app_nil_r. split_and!; [done | done | apply touches_refl | done].
  - unfold mbind, M_bind, bind.
    destruct (generate_file_summary project_path project_type description model f w)
      as (l1 & Hl1 & Hw1 & Ht1 & He1).
    assert (Hsub1 : [joinpath project_path f] ⊆ joinpath project_path f :: targets project_path files).
    { intros x Hx. apply list_elem_of_singleton in Hx as ->. by left. }
    assert (Hsub2 : targets project_path files ⊆ joinpath project_path f :: targets project_path files).
    { intros x Hx. by right. }
    destruct (generate_file llm project_path project_type description model f w)
      as [[[]|e] w1]; simpl in *.
    + destruct (IH w1) as (l2 & Hl2 & Hw2 & Ht2 & He2).
      exists (l1 ++ l2). rewrite Hl2, Hl1, <- app_assoc. split_and!.
      * done.
      * apply Forall_app. split.
        -- eapply Forall_impl; [exact Hw1|]. intros e. by apply event_within_mono.
        -- eapply Forall_impl; [exact Hw2|]. intros e. by apply event_within_mono.
      * apply (touches_trans _ _ (disk w1)).
        -- by apply (touches_mono [joinpath project_path f]).
        -- by apply (touches_mono (targets project_path files)).
      * unfold effects. rewrite omap_app. fold (effects l1). fold (effects l2).
        rewrite He1.
        destruct (generate_files llm project_path project_type description model files w1).1.
        -- by rewrite He2.
        -- destruct He2 as (k & Hk & He2). exists (S k). split; [lia|].
           by rewrite He2.
    + exists l1. split_and!.
      * done.
      * eapply Forall_impl; [exact Hw1|]. intros e'. by apply event_within_mono.
      * by apply (touches_mono [joinpath project_path f]).
      * exists 0. split; [lia | done].
Qed.

End Loop.

(** *** The steps around the loop *)

Lemma prepare_directory_cases (project_path : path) (w : world) :
  prepare_directory project_path w =
    match stat (disk w) project_path with
    | None =>
        match mkdir_parents (disk w) project_path with
        | inr d1 =>
            (Ok (Some true),
             World d1 (log w ++ [EPrint (("创建项目目录: " +:+ path_str project_path) +:+ nl);
                                 EMkdir project_path]))
        | inl e =>
            (Raise e,
             World (disk w)
               (log w ++ [EPrint (("创建项目目录: " +:+ path_str project_path) +:+ nl)]))
        end
    | Some Dir => (Ok (Some false), w)
    | Some (File _) =>
        (Ok None,
         World (disk w) (log w ++ [EPrint (not_a_directory_message project_path +:+ nl)]))
    end.
Proof.
  unfold prepare_directory, mbind, M_bind, bind, py_exists, py_is_dir, path_exists,
    is_dir, print_line, emit, py_mkdir.
  destruct (stat (disk w) project_path) as [[|c]|] eqn:Hst; simpl; rewrite ?Hst; simpl;
    [done | done |].
  destruct (mkdir_parents (disk w) project_path); simpl; [done|].
  by rewrite <- app_assoc.
Qed.

Lemma ensure_repository_cases (project_path : path) (is_new_project : bool) (w : world) :
  ensure_repository git project_path is_new_project w =
    if is_new_project || negb (path_exists (disk w) (project_path ++ [".git"])) then
      let l1 := log w ++ [EPrint ("初始化Git仓库..." +:+ nl)] in
      let g := git l1 git_init project_path (disk w) in
      (if g.1 then Ok tt else Raise (CalledProcessError git_init),
       World g.2 (l1 ++ [ERun git_init project_path]))
    else (Ok tt, w).
Proof.
  unfold ensure_repository, bind, py_exists.
  destruct (is_new_project || negb (path_exists (disk w) (project_path ++ [".git"])));
    [|done].
  unfold mbind, M_bind, bind, print_line, emit, run; simpl.
  by destruct (git _ git_init project_path (disk w)).1.
Qed.

Lemma commit_all_cases (project_path : path) (commit_message : string) (w : world) :
  commit_all git project_path commit_message w =
    let l1 := log w ++ [EPrint ((nl +:+ "添加文件到Git并提交...") +:+ nl)] in
    let g1 := git l1 git_add project_path (disk w) in
    let l2 := l1 ++ [ERun git_add project_path] in
    if g1.1 then
      let g2 := git l2 (git_commit commit_message) project_path g1.2 in
      (if g2.1 then Ok tt else Raise (CalledProcessError (git_commit commit_message)),
       World g2.2 (l2 ++ [ERun (git_commit commit_message) project_path]))
    else (Raise (CalledProcessError git_add), World g1.2 l2).
Proof.
  unfold commit_all, mbind, M_bind, bind, print_line, emit, run; simpl.
  destruct (git _ git_add project_path (disk w)).1; [|done].
  by destruct (git _ (git_commit commit_message) project_path _).1.
Qed.

Lemma create_or_modify_project_steps (project_path : path)
    (project_type description : string) (files : list string)
    (commit_message model : string) (w : world) :
  create_or_modify_project llm git project_path project_type description files
      commit_message model w =
    match prepare_directory project_path w with
    | (Ok None, w1) => (Ok tt, w1)
    | (Ok (Some is_new_project), w1) =>
        match ensure_repository git project_path is_new_project w1 with
        | (Ok _, w2) =>
            match generate_files llm project_path project_type description model files w2 with
            | (Ok _, w3) =>
                match commit_all git project_path commit_message w3 with
                | (Ok _, w4) =>
                    print_line (nl +:+ "项目" +:+ (if is_new_project then "创建" else "修改")
                                +:+ "完成并已提交到Git仓库!") w4
                | (Raise e, w4) => (Raise e, w4)
                end
            | (Raise e, w3) => (Raise e, w3)
            end
        | (Raise e, w2) => (Raise e, w2)
        end
    | (Raise e, w1) => (Raise e, w1)
    end.
Proof.
  unfold create_or_modify_project, bind.
  destruct (prepare_directory project_path w) as [[[n|]|e] w1]; [|done|done].
  unfold mbind, M_bind, bind.
  destruct (ensure_repository git project_path n w1) as [[[]|e] w2]; [|done].
  destruct (generate_files llm project_path project_type description model files w2)
    as [[[]|e] w3]; [|done].
  by destruct (commit_all git project_path commit_message w3) as [[[]|e] w4].
Qed.

(** *** From the repository to the commit *)

Section Pipeline.
Variables (project_path : path) (project_type description : string)
  (files : list string) (commit_message model : string).

Lemma create_or_modify_project_setup (w : world) :
  create_or_modify_project llm git project_path project_type description files
      commit_message model w =
    match setup_project git project_path w with
    | (Ok None, w1) => (Ok tt, w1)
    | (Ok (Some is_new_project), w1) => after_repository llm git project_path project_type description files commit_message model is_new_project w1
    | (Raise e, w1) => (Raise e, w1)
    end.
Proof.
  unfold create_or_modify_project, setup_project, bind.
  destruct (prepare_directory project_path w) as [[[n|]|e] w1]; [|done|done].
  unfold mbind, M_bind, bind.
  by destruct (ensure_repository git project_path n w1) as [[[]|e] w2].
Qed.

Lemma setup_project_cases (w : world) :
  setup_project git project_path w =
    match prepare_directory project_path w with
    | (Ok None, w1) => (Ok None, w1)
    | (Ok (Some is_new_project), w1) =>
        match ensure_repository git project_path is_new_project w1 with
        | (Ok _, w2) => (Ok (Some is_new_project), w2)
        | (Raise e, w2) => (Raise e, w2)
        end
    | (Raise e, w1) => (Raise e, w1)
    end.
Proof.
  unfold setup_project, bind.
  destruct (prepare_directory project_path w) as [[[n|]|e] w1]; [|done|done].
  unfold mbind, M_bind, bind.
  by destruct (ensure_repository git project_path n w1) as [[[]|e] w2].
Qed.

Lemma create_or_modify_project_from (w : world) :
  create_or_modify_project llm git project_path project_type description files
      commit_message model w =
    match prepare_directory project_path w with
    | (Ok None, w1) => (Ok tt, w1)
    | (Ok (Some is_new_project), w1) => from_repository llm git project_path project_type description files commit_message model is_new_project w1
    | (Raise e, w1) => (Raise e, w1)
    end.
Proof.
  unfold create_or_modify_project, bind.
  by destruct (prepare_directory project_path w) as [[[n|]|e] w1].
Qed.

Lemma effects_app (l1 l2 : list event) : effects (l1 ++ l2) = effects l1 ++ effects l2.
Proof. apply omap_app. Qed.

Lemma from_repository_cases (is_new_project : bool) (w : world) :
  from_repository llm git project_path project_type description files commit_message model is_new_project w =
    if is_new_project || negb (path_exists (disk w) (project_path ++ [".git"])) then
      let l1 := log w ++ [EPrint ("初始化Git仓库..." +:+ nl)] in
      let g := git l1 git_init project_path (disk w) in
      if g.1 then
        after_repository llm git project_path project_type description files commit_message model is_new_project (World g.2 (l1 ++ [ERun git_init project_path]))
      else
        (Raise (CalledProcessError git_init),
         World g.2 (l1 ++ [ERun git_init project_path]))
    else after_repository llm git project_path project_type description files commit_message model is_new_project w.
Proof.
  unfold from_repository. unfold mbind at 1. unfold M_bind, bind.
  rewrite ensure_repository_cases.
  destruct (is_new_project || negb (path_exists (disk w) (project_path ++ [".git"])));
    [|done].
  cbv zeta. by destruct (git _ git_init project_path (disk w)).1.
Qed.

(** Every run of [from_repository] does a prefix of the plan, and all of
    it when it returns. *)
Lemma from_repository_effects (is_new_project : bool) (w : world) :
  let init := is_new_project || negb (path_exists (disk w) (project_path ++ [".git"])) in
  ∃ l rest,
    log (from_repository llm git project_path project_type description files commit_message model is_new_project w).2 = log w ++ l
    ∧ effects l = (if init then [Ran git_init project_path] else []) ++ rest
    ∧ rest `prefix_of` (loop_then_commit project_path files commit_message)
    ∧ ((from_repository llm git project_path project_type description files commit_message model is_new_project w).1 = Ok tt → rest = (loop_then_commit project_path files commit_message)).
Proof.
  intros init. rewrite from_repository_cases. fold init.
  assert (Hloop : ∀ w2 l0,
    log w2 = log w ++ l0 →
    ∃ l rest,
      log (after_repository llm git project_path project_type description files commit_message model is_new_project w2).2 = log w ++ l0 ++ l
      ∧ effects l = rest
      ∧ rest `prefix_of` (loop_then_commit project_path files commit_message)
      ∧ ((after_repository llm git project_path project_type description files commit_message model is_new_project w2).1 = Ok tt → rest = (loop_then_commit project_path files commit_message))).
  { intros w2 l0 Hw2. unfold after_repository, mbind, M_bind, bind.
    destruct (generate_files_summary project_path project_type description model files w2)
      as (l2 & Hl2 & _ & _ & He2).
    destruct (generate_files llm project_path project_type description model files w2)
      as [[[]|e] w3]; simpl in *.
    - rewrite commit_all_cases; simpl.
      destruct (git _ git_add project_path (disk w3)).1.
      + destruct (git _ (git_commit commit_message) project_path _).1; simpl.
        * eexists (l2 ++ [_; _; _; _]), (loop_then_commit project_path files commit_message).
          rewrite Hl2, Hw2, <- !app_assoc. split_and!; [done | | done | done].
          rewrite effects_app, He2. done.
        * eexists (l2 ++ [_; _; _]), (loop_then_commit project_path files commit_message).
          rewrite Hl2, Hw2, <- !app_assoc. split_and!; [done | | done | done].
          rewrite effects_app, He2. done.
      + simpl. eexists (l2 ++ [_; _]),
          (map Wrote (targets project_path files) ++ [Ran git_add project_path]).
        rewrite Hl2, Hw2, <- !app_assoc. split_and!; [done | | | done].
        * rewrite effects_app, He2. done.
        * apply prefix_app, prefix_cons, prefix_nil.
    - destruct He2 as (k & Hk & He2). exists l2, (effects l2).
      rewrite Hl2, Hw2, <- !app_assoc. split_and!; [done | done | | done].
      rewrite He2. unfold loop_then_commit.
      apply prefix_app_r, prefix_take. }
  destruct init; cbv zeta.
  - destruct (git _ git_init project_path (disk w)).1; simpl.
    + destruct (Hloop (World (git (log w ++ [EPrint ("初始化Git仓库..." +:+ nl)])
                                git_init project_path (disk w)).2
                         ((log w ++ [EPrint ("初始化Git仓库..." +:+ nl)])
                            ++ [ERun git_init project_path]))
                  [EPrint ("初始化Git仓库..." +:+ nl); ERun git_init project_path])
        as (l & rest & Hl & He & Hp & Hok).
      { simpl. rewrite <- app_assoc. done. }
      eexists _, rest. split_and!; [exact Hl | | exact Hp | exact Hok].
      rewrite effects_app, He. done.
    + eexists [_; _], []. rewrite <- app_assoc. split_and!; [done | done | | done].
      apply prefix_nil.
  - destruct (Hloop w []) as (l & rest & Hl & He & Hp & Hok).
    { by rewrite app_nil_r. }
    exists l, rest. split_and!; [exact Hl | exact He | exact Hp | exact Hok].
Qed.

Lemma project_effects (w : world) :
  let m := create_or_modify_project llm git project_path project_type description files
             commit_message model in
  ∃ l rest,
    log (m w).2 = log w ++ l
    ∧ effects l = (if init_expected project_path (disk w) then [Ran git_init project_path] else []) ++ rest
    ∧ rest `prefix_of` (loop_then_commit project_path files commit_message)
    ∧ ((m w).1 = Ok tt → (∀ c, stat (disk w) project_path ≠ Some (File c)) →
       rest = (loop_then_commit project_path files commit_message)).
Proof.
  intros m. unfold m, init_expected.
  rewrite create_or_modify_project_from, prepare_directory_cases.
  destruct (stat (disk w) project_path) as [[|c]|] eqn:Hst.
  - destruct (from_repository_effects false w) as (l & rest & Hl & He & Hp & Hok).
    exists l, rest. simpl in He. split_and!; [done | done | done |].
    intros H _. by apply Hok.
  - eexists [_], []. simpl. split_and!; [done | done | apply prefix_nil |].
    intros _ H. by destruct (H c).
  - destruct (mkdir_parents (disk w) project_path) as [e|d1].
    + eexists [_], []. simpl. split_and!; [done | done | apply prefix_nil | done].
    + match goal with
      | |- context [from_repository llm git project_path project_type description files commit_message model true ?w1] =>
          destruct (from_repository_effects true w1) as (l & rest & Hl & He & Hp & Hok)
      end.
      simpl in Hl, He.
      eexists (_ :: _ :: l), rest. rewrite Hl, <- app_assoc.
      split_and!; [done | | done |].
      * simpl. exact He.
      * intros H _. by apply Hok.
Qed.

Lemma runs_of_app (argv : list string) (l1 l2 : list effect) :
  runs_of argv (l1 ++ l2) = runs_of argv l1 + runs_of argv l2.
Proof. unfold runs_of. by rewrite List.filter_app, length_app. Qed.

Lemma runs_of_prefix (argv : list string) (l1 l2 : list effect) :
  l1 `prefix_of` l2 → runs_of argv l1 ≤ runs_of argv l2.
Proof. intros [k ->]. rewrite runs_of_app. lia. Qed.

Lemma runs_of_writes (argv : list string) (T : list path) :
  runs_of argv (map Wrote T) = 0.
Proof. induction T as [|t T IH]; [done | exact IH]. Qed.

Lemma runs_of_plan (argv : list string) :
  runs_of argv (loop_then_commit project_path files commit_message) =
    (if bool_decide (git_add = argv) then 1 else 0)
    + (if bool_decide (git_commit commit_message = argv) then 1 else 0).
Proof.
  unfold loop_then_commit. rewrite runs_of_app, runs_of_writes.
  unfold runs_of; simpl.
  destruct (bool_decide (git_add = argv)),
    (bool_decide (git_commit commit_message = argv)); done.
Qed.

End Pipeline.

End ScriptFacts.

Lemma stat_snoc (d : gmap path node) (p : path) (x : string) :
  stat d (p ++ [x]) = d !! (p ++ [x]).
Proof. unfold stat. by destruct p. Qed.

Lemma not_under_metadata (p q : path) (x : string) :
  q `prefix_of` p → ¬ (p ++ [x]) `prefix_of` q.
Proof.
  intros [k1 Hk1] [k2 Hk2]. apply (f_equal length) in Hk1, Hk2.
  rewrite !length_app in *. simpl in *. lia.
Qed.

(** * The script, property by property *)

Section Claims.
Variable llm : list event → string → string → response.
Variable git : list event → list string → path → gmap path node → bool * gmap path node.

(** ** The target path is a regular file *)

Lemma not_a_directory_returns (project_path : path) (project_type description : string)
    (files : list string) (commit_message model : string) (w : world) (c : string) :
  stat (disk w) project_path = Some (File c) →
  create_or_modify_project llm git project_path project_type description files
      commit_message model w =
    (Ok tt, World (disk w) (log w ++ [EPrint (not_a_directory_message project_path +:+ nl)])).
Proof.
  intros Hst. rewrite create_or_modify_project_steps, prepare_directory_cases.
  by rewrite Hst.
Qed.

(** C5: when the target path is a regular file, the function reports the
    error and returns before any mutation: the disk is the one it found,
    and the only thing it did is print the message: no directory made, no
    file read or written, no request, no [git] command. *)
Theorem target_is_file_no_mutation (project_path : path) (project_type description : string)
    (files : list string) (commit_message model : string) (w : world) (c : string) :
  stat (disk w) project_path = Some (File c) →
  let m := create_or_modify_project llm git project_path project_type description files
             commit_message model in
  (m w).1 = Ok tt
  ∧ disk (m w).2 = disk w
  ∧ trace m w = [EPrint (not_a_directory_message project_path +:+ nl)]
  ∧ effects (trace m w) = []
  ∧ requests (trace m w) = []
  ∧ (∀ q, (EMkdir q ∉ trace m w) ∧ (ERead q ∉ trace m w)).
Proof.
  intros Hst m. unfold m.
  assert (Htr : trace (create_or_modify_project llm git project_path project_type
                         description files commit_message model) w
                = [EPrint (not_a_directory_message project_path +:+ nl)]).
  { apply trace_of. by rewrite (not_a_directory_returns _ _ _ _ _ _ _ c Hst). }
  rewrite Htr. rewrite (not_a_directory_returns _ _ _ _ _ _ _ c Hst). simpl.
  split_and!; try done.
  intros q. split; intros H; apply list_elem_of_singleton in H; done.
Qed.

(** C9: when the target path exists and is no directory, the function
    returns normally after the message, and the process ends with exit
    status zero. *)
Theorem not_a_directory_exit_zero (key : option string) (a : args) (w : world) (c : string) :
  key_missing key = false →
  stat (disk w) (arg_path a) = Some (File c) →
  script llm git key a w =
    (Ok tt, World (disk w) (log w ++ [EPrint (not_a_directory_message (arg_path a) +:+ nl)]))
  ∧ exit_status (script llm git key a w).1 = 0%Z.
Proof.
  intros Hkey Hst. unfold script, main. rewrite Hkey.
  by rewrite (not_a_directory_returns _ _ _ _ _ _ _ c Hst).
Qed.

(** ** The credential *)

(** C6: without the API key the process stops at once with a non-zero
    exit status: it has printed the message and done nothing else, and the
    disk is untouched. *)
Theorem missing_key_exits (key : option string) (a : args) (w : world) :
  key_missing key = true →
  script llm git key a w =
    (Raise (SystemExit 1), World (disk w) (log w ++ [EPrint (missing_key_message +:+ nl)]))
  ∧ exit_status (script llm git key a w).1 ≠ 0%Z
  ∧ disk (script llm git key a w).2 = disk w
  ∧ trace (script llm git key a) w = [EPrint (missing_key_message +:+ nl)].
Proof.
  intros Hkey.
  assert (Heq : script llm git key a w =
    (Raise (SystemExit 1), World (disk w) (log w ++ [EPrint (missing_key_message +:+ nl)]))).
  { unfold script. by rewrite Hkey. }
  split_and!; [done | by rewrite Heq | by rewrite Heq |].
  apply trace_of. by rewrite Heq.
Qed.

(** ** Order of the effects, and the commit *)

Lemma run_effects (project_path : path) (project_type description : string)
    (files : list string) (commit_message model : string) (w : world) :
  let m := create_or_modify_project llm git project_path project_type description files
             commit_message model in
  ∃ rest,
    effects (trace m w) =
      (if init_expected project_path (disk w) then [Ran git_init project_path] else [])
        ++ rest
    ∧ rest `prefix_of` loop_then_commit project_path files commit_message
    ∧ ((m w).1 = Ok tt → (∀ c, stat (disk w) project_path ≠ Some (File c)) →
       rest = loop_then_commit project_path files commit_message).
Proof.
  intros m.
  destruct (project_effects llm git project_path project_type description files
              commit_message model w) as (l & rest & Hl & He & Hp & Hok).
  exists rest. subst m. rewrite (trace_of _ _ _ Hl). done.
Qed.

Lemma init_is_no_add : bool_decide (git_add = git_init) = false.
Proof. reflexivity. Qed.

Lemma init_is_no_commit (commit_message : string) :
  bool_decide (git_commit commit_message = git_init) = false.
Proof. apply bool_decide_eq_false. discriminate. Qed.

Lemma add_is_no_commit (commit_message : string) :
  bool_decide (git_add = git_commit commit_message) = false.
Proof. apply bool_decide_eq_false. discriminate. Qed.

(** C3: the effects of every run are a prefix of the plan "[git init] if
    needed, then one write per file in the order of the list, then one
    [git add .], then one [git commit -m message]", so no command comes
    between two writes and the commit is never run twice; a run that
    returns with the target a directory has done the whole plan: all the
    files written in order, then exactly one add and exactly one commit. *)
Theorem files_in_order_then_one_commit (project_path : path)
    (project_type description : string) (files : list string)
    (commit_message model : string) (w : world) :
  let m := create_or_modify_project llm git project_path project_type description files
             commit_message model in
  let plan := planned_effects project_path files commit_message
                (init_expected project_path (disk w)) in
  effects (trace m w) `prefix_of` plan
  ∧ runs_of (git_commit commit_message) (effects (trace m w)) ≤ 1
  ∧ ((m w).1 = Ok tt → (∀ c, stat (disk w) project_path ≠ Some (File c)) →
     effects (trace m w) = plan
     ∧ runs_of git_add (effects (trace m w)) = 1
     ∧ runs_of (git_commit commit_message) (effects (trace m w)) = 1).
Proof.
  intros m plan.
  destruct (run_effects project_path project_type description files commit_message
              model w) as (rest & He & Hp & Hok).
  fold m in He, Hok.
  assert (Hplan : ∀ argv,
    runs_of argv plan =
      (if init_expected project_path (disk w) then
         if bool_decide (git_init = argv) then 1 else 0
       else 0)
      + ((if bool_decide (git_add = argv) then 1 else 0)
         + (if bool_decide (git_commit commit_message = argv) then 1 else 0))).
  { intros argv. unfold plan, planned_effects.
    rewrite runs_of_app, runs_of_plan.
    destruct (init_expected project_path (disk w)); [|done].
    unfold runs_of; simpl. by destruct (bool_decide (git_init = argv)). }
  assert (Hpre : effects (trace m w) `prefix_of` plan).
  { rewrite He. unfold plan, planned_effects. by apply prefix_app. }
  split_and!.
  - done.
  - etrans; [apply (runs_of_prefix _ _ _ Hpre)|].
    rewrite Hplan.
    assert (H1 : bool_decide (git_init = git_commit commit_message) = false).
    { apply bool_decide_eq_false. discriminate. }
    rewrite H1, add_is_no_commit.
    destruct (init_expected project_path (disk w)),
      (bool_decide (git_commit commit_message = git_commit commit_message)); simpl; lia.
  - intros Hret Hdir. specialize (Hok Hret Hdir).
    assert (Heq : effects (trace m w) = plan).
    { rewrite He, Hok. done. }
    rewrite Heq, !Hplan.
    assert (H1 : bool_decide (git_init = git_commit commit_message) = false).
    { apply bool_decide_eq_false. discriminate. }
    assert (H2 : bool_decide (git_init = git_add) = false) by reflexivity.
    assert (H3 : bool_decide (git_commit commit_message = git_add) = false).
    { apply bool_decide_eq_false. discriminate. }
    rewrite H1, H2, H3, add_is_no_commit.
    rewrite !bool_decide_eq_true_2 by done.
    split_and!; [done | |]; by destruct (init_expected project_path (disk w)).
Qed.

(** ** Repository initialization *)

Lemma init_expected_iff (project_path : path) (d : gmap path node) :
  init_expected project_path d = true ↔
    (path_exists d project_path = false ∧ ∃ d1, mkdir_parents d project_path = inr d1)
    ∨ (is_dir d project_path = true ∧ path_exists d (project_path ++ [".git"]) = false).
Proof.
  unfold init_expected, path_exists, is_dir.
  destruct (stat d project_path) as [[|c]|].
  - destruct (stat d (project_path ++ [".git"])); simpl; split.
    + done.
    + intros [[H _]|[_ H]]; done.
    + intros _. by right.
    + done.
  - split; [done|]. intros [[H _]|[H _]]; done.
  - destruct (mkdir_parents d project_path) as [e|d1]; split.
    + done.
    + intros [[_ [d1 H]]|[H _]]; done.
    + intros _. left. split; [done|]. by exists d1.
    + done.
Qed.

(** C4: [git init] is run once when the project directory was just created
    or was there without a [.git] entry, and not at all otherwise; in
    particular never for an existing directory that has a [.git] entry. *)
Theorem init_exactly_when_needed (project_path : path)
    (project_type description : string) (files : list string)
    (commit_message model : string) (w : world) :
  let m := create_or_modify_project llm git project_path project_type description files
             commit_message model in
  runs_of git_init (effects (trace m w)) =
    (if init_expected project_path (disk w) then 1 else 0)
  ∧ (init_expected project_path (disk w) = true ↔
       (path_exists (disk w) project_path = false
        ∧ ∃ d1, mkdir_parents (disk w) project_path = inr d1)
       ∨ (is_dir (disk w) project_path = true
          ∧ path_exists (disk w) (project_path ++ [".git"]) = false))
  ∧ (is_dir (disk w) project_path = true →
     path_exists (disk w) (project_path ++ [".git"]) = true →
     runs_of git_init (effects (trace m w)) = 0).
Proof.
  intros m.
  destruct (run_effects project_path project_type description files commit_message
              model w) as (rest & He & Hp & _).
  fold m in He.
  assert (Hrest : runs_of git_init rest = 0).
  { pose proof (runs_of_prefix git_init _ _ Hp) as Hle.
    rewrite runs_of_plan, init_is_no_add, init_is_no_commit in Hle. lia. }
  assert (Hcount : runs_of git_init (effects (trace m w)) =
                     (if init_expected project_path (disk w) then 1 else 0)).
  { rewrite He, runs_of_app, Hrest.
    by destruct (init_expected project_path (disk w)). }
  split_and!; [done | apply init_expected_iff |].
  intros Hdir Hgit. rewrite Hcount.
  destruct (init_expected project_path (disk w)) eqn:Hi; [|done].
  apply init_expected_iff in Hi as [[Hn _]|[_ Hn]].
  - unfold is_dir in Hdir. unfold path_exists in Hn.
    by destruct (stat (disk w) project_path) as [[|c]|].
  - congruence.
Qed.

(** ** The prompt of one file *)

(** The two verbs give different prompts, whatever the other fields. *)
Lemma prompt_text_verb (project_type description file_path : string) (v1 v2 : verb)
    (c1 c2 : string) :
  prompt_text project_type v1 description file_path c1 =
    prompt_text project_type v2 description file_path c2 →
  v1 = v2.
Proof.
  unfold prompt_text. intros H.
  do 4 apply append_inv_head in H.
  destruct v1, v2; try done; discriminate H.
Qed.

Lemma signals_build_prompt (project_type description file_path existing : string)
    (v : verb) :
  signals project_type description file_path v
    (build_prompt project_type description file_path existing)
  ↔ v = action existing.
Proof.
  unfold signals, build_prompt. split.
  - intros [ctx H]. symmetry. by apply prompt_text_verb in H.
  - intros ->. by exists existing.
Qed.

(** The requests of one turn: none, or the one for the file. *)
Lemma generate_file_requests (project_path : path)
    (project_type description model file_path : string) (w : world) :
  let full_path := joinpath project_path file_path in
  requests (trace (generate_file llm project_path project_type description model
                     file_path) w) =
    match mkdir_parents (disk w) (parent full_path) with
    | inl _ => []
    | inr _ =>
        match stat (disk w) full_path with
        | Some Dir => []
        | o =>
            if readable o then
              [(model, build_prompt project_type description file_path (prior_content o))]
            else []
        end
    end.
Proof.
  intros full_path.
  assert (Hprints : ∀ fs : list string, requests (map EPrint fs) = []).
  { induction fs; done. }
  assert (Hgo : ∀ d1 o, (o = None ∨ ∃ c, o = Some (File c)) →
    requests (drop (length (log w))
                (log (after_request llm project_path project_type description model
                        file_path w d1 o).2))
      = [(model, build_prompt project_type description file_path (prior_content o))]).
  { intros d1 o Ho. unfold after_request.
    destruct (llm _ model _) as [|chunks [|]]; simpl.
    - unfold log_before_request. rewrite <- ?app_assoc, drop_app_length.
      unfold requests. rewrite ?omap_app. by destruct Ho as [->|[c ->]].
    - unfold log_after_stream, log_before_request.
      rewrite <- ?app_assoc, drop_app_length. unfold requests.
      rewrite ?omap_app. fold (requests (map EPrint (fragments chunks))).
      rewrite Hprints. by destruct Ho as [->|[c ->]].
    - unfold log_after_stream, log_before_request.
      rewrite <- ?app_assoc, drop_app_length. unfold requests.
      rewrite ?omap_app. fold (requests (map EPrint (fragments chunks))).
      rewrite Hprints. by destruct Ho as [->|[c ->]]. }
  unfold trace. rewrite generate_file_cases. fold full_path.
  destruct (mkdir_parents (disk w) (parent full_path)) as [e|d1] eqn:Hmk.
  { by rewrite drop_all. }
  rewrite (mkdir_parent_stat _ _ _ Hmk).
  destruct (stat (disk w) full_path) as [[|c]|].
  - simpl. by rewrite drop_app_length.
  - simpl. destruct (utf8_valid c).
    + apply Hgo. right. by exists c.
    + simpl. by rewrite drop_app_length.
  - apply Hgo. by left.
Qed.

(** C1, as amended: in the turn of a file whose path has no [..], the
    prompt sent to the model signals "create", with no prior content in it,
    exactly when the file did not exist or existed with empty content, and
    signals "modify" exactly when the file existed with content that is not
    empty.  A "modify" prompt is sent only for a file whose bytes are
    UTF-8, and carries the content as line 83 reads it: every line ending
    as a line feed, hence verbatim when the content has no carriage
    return.  [w] is the world when the turn of the file begins
    ([generate_files_turn]: for every file of the list, the loop runs
    [generate_file] in the world left by the files before it). *)
Theorem prompt_verb_follows_prior_content (project_path : path)
    (project_type description model file_path : string) (w : world)
    (m prompt : string) :
  let full_path := joinpath project_path file_path in
  dotdot_free full_path = true →
  (m, prompt) ∈ requests (trace (generate_file llm project_path project_type description
                                   model file_path) w) →
  m = model
  ∧ (signals project_type description file_path Create prompt ↔
       stat (disk w) full_path = None ∨ stat (disk w) full_path = Some (File EmptyString))
  ∧ (signals project_type description file_path Modify prompt ↔
       ∃ c, c ≠ EmptyString ∧ stat (disk w) full_path = Some (File c))
  ∧ (signals project_type description file_path Create prompt →
       prompt = prompt_text project_type Create description file_path EmptyString)
  ∧ (∀ c, stat (disk w) full_path = Some (File c) → c ≠ EmptyString →
       utf8_valid c = true
       ∧ prompt = prompt_text project_type Modify description file_path
                    (universal_newlines c)
       ∧ (no_carriage_return c = true →
          prompt = prompt_text project_type Modify description file_path c)).
Proof.
  intros full_path _ Hin. rewrite generate_file_requests in Hin. fold full_path in Hin.
  destruct (mkdir_parents (disk w) (parent full_path)) as [e|d1].
  { by apply elem_of_nil in Hin. }
  assert (Hcases : readable (stat (disk w) full_path) = true ∧
            (m, prompt) = (model, build_prompt project_type description file_path
                                    (prior_content (stat (disk w) full_path)))).
  { destruct (stat (disk w) full_path) as [[|c]|]; simpl in *.
    - by apply elem_of_nil in Hin.
    - destruct (utf8_valid c); [|by apply elem_of_nil in Hin].
      by apply list_elem_of_singleton in Hin.
    - by apply list_elem_of_singleton in Hin. }
  clear Hin. destruct Hcases as [Hread [= -> ->]].
  rewrite !signals_build_prompt.
  destruct (stat (disk w) full_path) as [[|c]|]; [done | |].
  - simpl in *. unfold build_prompt, action.
    pose proof (universal_newlines_empty c) as Hempty.
    destruct (universal_newlines c) as [|a t] eqn:Hc; simpl.
    + assert (c = EmptyString) as -> by (by apply Hempty).
      split_and!.
      * done.
      * split; [by right | done].
      * split; [done|]. intros (c & Hc' & [= <-]). done.
      * done.
      * intros c [= <-] Hc'. done.
    + assert (Hne : c ≠ EmptyString).
      { intros ->. done. }
      split_and!.
      * done.
      * split; [done|]. intros [?|[= ?]]; done.
      * split; [|done]. intros _. by exists c.
      * done.
      * intros c' [= <-] _. split_and!; [done | by rewrite Hc |].
        intros Hcr. by rewrite <- (universal_newlines_plain c Hcr), Hc.
  - simpl. unfold build_prompt, action; simpl. split_and!.
    + done.
    + split; [by left | done].
    + split; [done|]. intros (c & _ & ?). done.
    + done.
    + intros c ?. done.
Qed.

(** ** The file after its turn *)

(** C2: when the turn of a file returns, the file holds exactly the
    concatenation, in arrival order, of the text fragments of the stream
    that answered the request of this turn, whatever it held before; an
    empty output leaves an empty file; the fragments are all the text of
    the stream when its chunks have one choice.  The turn returns whenever
    the path has no [..], the parent directory can be made, the path holds
    nothing or a file whose bytes are UTF-8, and the stream that answers
    the request ends normally. *)
Theorem file_holds_streamed_text (project_path : path)
    (project_type description model file_path : string) (w : world) :
  let full_path := joinpath project_path file_path in
  let turn := generate_file llm project_path project_type description model file_path in
  (∀ w', turn w = (Ok tt, w') →
     ∃ h prompt chunks,
       llm h model prompt = Stream chunks true
       ∧ log w' = h ++ [ERequest model prompt] ++ map EPrint (fragments chunks)
                    ++ [EWrite full_path (concat_text (fragments chunks));
                        EPrint ((nl +:+ file_path +:+ " "
                                 +:+ verb_text (action (prior_content (stat (disk w) full_path)))
                                 +:+ "完成") +:+ nl)]
       ∧ stat (disk w') full_path = Some (File (concat_text (fragments chunks)))
       ∧ (fragments chunks = [] → stat (disk w') full_path = Some (File EmptyString))
       ∧ (Forall single_choice chunks →
          stat (disk w') full_path = Some (File (concat_text (all_texts chunks)))))
  ∧ (∀ d1 chunks,
       dotdot_free full_path = true →
       mkdir_parents (disk w) (parent full_path) = inr d1 →
       readable (stat (disk w) full_path) = true →
       llm (log_before_request project_path file_path w (stat (disk w) full_path)) model
         (build_prompt project_type description file_path
            (prior_content (stat (disk w) full_path))) = Stream chunks true →
       ∃ w', turn w = (Ok tt, w')
             ∧ stat (disk w') full_path = Some (File (concat_text (fragments chunks)))).
Proof.
  intros full_path turn. unfold turn. rewrite generate_file_cases. fold full_path.
  split.
  - intros w' Hret.
    destruct (mkdir_parents (disk w) (parent full_path)) as [e|d1] eqn:Hmk; [done|].
    rewrite (mkdir_parent_stat _ _ _ Hmk) in Hret.
    assert (Hgo : ∀ o, o = stat (disk w) full_path → o ≠ Some Dir →
              after_request llm project_path project_type description model file_path
                w d1 o = (Ok tt, w') →
              ∃ h prompt chunks,
                llm h model prompt = Stream chunks true
                ∧ log w' = h ++ [ERequest model prompt] ++ map EPrint (fragments chunks)
                    ++ [EWrite full_path (concat_text (fragments chunks));
                        EPrint ((nl +:+ file_path +:+ " "
                                 +:+ verb_text (action (prior_content o))
                                 +:+ "完成") +:+ nl)]
                ∧ stat (disk w') full_path = Some (File (concat_text (fragments chunks)))
                ∧ (fragments chunks = [] →
                   stat (disk w') full_path = Some (File EmptyString))
                ∧ (Forall single_choice chunks →
                   stat (disk w') full_path
                   = Some (File (concat_text (all_texts chunks))))).
    { intros o Ho Hnd. unfold after_request. fold full_path.
      destruct (llm _ model _) as [|chunks [|]] eqn:Hllm; [done | | done].
      intros [= <-]. eexists _, _, chunks. split; [exact Hllm|].
      assert (Hfull : full_path ≠ []).
      { intros Hnil. rewrite Hnil in Ho. simpl in Ho. by subst o. }
      assert (Hst : stat (<[full_path := File (concat_text (fragments chunks))]> d1)
                      full_path = Some (File (concat_text (fragments chunks)))).
      { unfold stat. destruct full_path; [done|]. by rewrite lookup_insert_eq. }
      simpl. split_and!.
      - unfold log_after_stream. by rewrite <- !app_assoc.
      - done.
      - intros Hnone. by rewrite Hst, Hnone.
      - intros Hone. by rewrite Hst, fragments_all_texts. }
    destruct (stat (disk w) full_path) as [[|c]|] eqn:Hst; [done | |].
    + simpl in Hret. destruct (utf8_valid c); [|done]. by apply Hgo.
    + by apply Hgo.
  - intros d1 chunks _ Hmk Hread Hllm. rewrite Hmk, (mkdir_parent_stat _ _ _ Hmk).
    assert (Hfull : full_path ≠ []).
    { intros Hnil. rewrite Hnil in Hread. done. }
    assert (Hgo : ∃ w',
              after_request llm project_path project_type description model file_path
                w d1 (stat (disk w) full_path) = (Ok tt, w')
              ∧ stat (disk w') full_path = Some (File (concat_text (fragments chunks)))).
    { unfold after_request. fold full_path. rewrite Hllm. eexists. split; [done|].
      simpl. unfold stat at 1. destruct full_path; [done|]. by rewrite lookup_insert_eq. }
    destruct (stat (disk w) full_path) as [[|c]|]; [done | |].
    + simpl in *. by rewrite Hread.
    + done.
Qed.

(** ** A new project *)

(** C7: when the target path does not exist, after the directory and
    repository steps (lines 54-70) the path is a directory, as are all the
    parents that had to be made, [git init] was run in it and it has a
    [.git] entry.  The steps complete whenever no component of the path is
    a regular file and [git init] exits with status zero. *)
Theorem new_project_is_set_up (project_path : path) (w : world) :
  metadata_only git → init_makes_metadata git →
  path_exists (disk w) project_path = false →
  (∀ r w', setup_project git project_path w = (Ok r, w') →
     r = Some true
     ∧ path_exists (disk w') project_path = true
     ∧ (∀ q, q `prefix_of` project_path → is_dir (disk w') q = true)
     ∧ path_exists (disk w') (project_path ++ [".git"]) = true
     ∧ effects (trace (setup_project git project_path) w) = [Ran git_init project_path])
  ∧ ((∀ q c, q `prefix_of` project_path → disk w !! q ≠ Some (File c)) →
     (∀ h d, (git h git_init project_path d).1 = true) →
     ∃ w', setup_project git project_path w = (Ok (Some true), w')).
Proof.
  intros Hmeta Hinit Hnew.
  assert (Hst : stat (disk w) project_path = None).
  { unfold path_exists in Hnew. by destruct (stat (disk w) project_path). }
  split.
  - intros r w'. unfold trace.
    rewrite setup_project_cases, prepare_directory_cases, Hst.
    destruct (mkdir_parents (disk w) project_path) as [e|d1] eqn:Hmk; [done|].
    rewrite ensure_repository_cases. simpl.
    destruct (git _ git_init project_path d1).1 eqn:Hok; [|done].
    intros [= <- <-]. simpl.
    assert (Hdirs : ∀ q, q `prefix_of` project_path →
              is_dir (git ((log w ++ [EPrint (("创建项目目录: " +:+ path_str project_path) +:+ nl);
                                      EMkdir project_path])
                             ++ [EPrint ("初始化Git仓库..." +:+ nl)])
                        git_init project_path d1).2 q = true).
    { intros q Hq. pose proof (mkdir_parents_made _ _ _ q Hmk Hq) as Hd.
      unfold is_dir, stat in *. destruct q as [|x q]; [done|].
      rewrite Hmeta; [done|]. by apply not_under_metadata. }
    split_and!.
    + done.
    + specialize (Hdirs project_path ltac:(done)). unfold is_dir in Hdirs.
      unfold path_exists.
      match goal with
      | |- match ?o with _ => _ end = true => by destruct o as [[|c]|]
      end.
    + done.
    + unfold path_exists. rewrite stat_snoc.
      by destruct (Hinit _ _ _ Hok) as [n ->].
    + rewrite <- !app_assoc, drop_app_length. done.
  - intros Hfree Hgit.
    destruct (mkdir_parents_total (disk w) project_path Hfree) as [d1 Hmk].
    rewrite setup_project_cases, prepare_directory_cases, Hst, Hmk.
    rewrite ensure_repository_cases. simpl. rewrite Hgit. by eexists.
Qed.

(** ** What is left alone *)








(** ** What is written *)

Lemma mkdir_parents_again (d : gmap path node) (p : path) :
  (∀ q, q `prefix_of` p → is_dir d q = true) → ∃ d', mkdir_parents d p = inr d'.
Proof.
  intros Hdirs. apply mkdir_from_total. intros q c Hp Hl Hq.
  specialize (Hdirs q Hp). unfold is_dir, stat in Hdirs.
  destruct q; [simpl in Hl; lia|]. by rewrite Hq in Hdirs.
Qed.

(** A turn that returns has written a regular file at its path, and has
    left every directory above it in place. *)
Lemma generate_file_written (project_path : path)
    (project_type description model file_path : string) (w w1 : world) :
  let full_path := joinpath project_path file_path in
  generate_file llm project_path project_type description model file_path w = (Ok tt, w1) →
  ∃ s, full_path ≠ []
       ∧ disk w1 !! full_path = Some (File s)
       ∧ EWrite full_path s ∈ trace (generate_file llm project_path project_type
                                       description model file_path) w
       ∧ (∀ q, q `prefix_of` parent full_path → is_dir (disk w1) q = true).
Proof.
  intros full_path Hret. unfold trace. rewrite Hret. simpl.
  rewrite generate_file_cases in Hret. fold full_path in Hret.
  destruct (mkdir_parents (disk w) (parent full_path)) as [e|d1] eqn:Hmk; [done|].
  assert (Hgo : ∀ o, stat d1 full_path = o →
    after_request llm project_path project_type description model file_path w d1 o
      = (Ok tt, w1) →
    ∃ s, full_path ≠ []
         ∧ disk w1 !! full_path = Some (File s)
         ∧ EWrite full_path s ∈ drop (length (log w)) (log w1)
         ∧ (∀ q, q `prefix_of` parent full_path → is_dir (disk w1) q = true)).
  { intros o Ho. unfold after_request. fold full_path.
    destruct (llm _ model _) as [|chunks [|]]; [done | | done].
    intros [= <-]. simpl. exists (concat_text (fragments chunks)).
    assert (Hne : full_path ≠ []).
    { intros Hnil. rewrite Hnil in Ho. simpl in Ho. subst o.
      rewrite Hnil in Hret. simpl in Hret. done. }
    split_and!.
    - done.
    - by rewrite lookup_insert_eq.
    - unfold log_after_stream, log_before_request.
      rewrite <- !app_assoc, drop_app_length.
      rewrite !elem_of_app. do 5 right. apply list_elem_of_here.
    - intros q Hq. pose proof (mkdir_parents_made _ _ _ q Hmk Hq) as Hd.
      unfold is_dir, stat in *. destruct q as [|x q]; [done|].
      rewrite lookup_insert_ne; [done|]. intros Heq.
      destruct Hq as [k Hk]. apply (f_equal length) in Hk.
      rewrite length_app, parent_length, Heq in Hk. simpl in Hk. lia. }
  destruct (stat d1 full_path) as [[|c]|] eqn:Hst; [done | |].
  - simpl in Hret. destruct (utf8_valid c); [|done]. by apply (Hgo _ eq_refl).
  - by apply (Hgo _ eq_refl).
Qed.

(** When the loop returns, every listed path holds a regular file. *)
Lemma generate_files_written (project_path : path)
    (project_type description model : string) (files : list string) :
  ∀ w w' : world,
    generate_files llm project_path project_type description model files w = (Ok tt, w') →
    ∀ t, t ∈ targets project_path files → t ≠ [] ∧ ∃ s, disk w' !! t = Some (File s).
Proof.
  induction files as [|f files IH]; intros w w' Hret t Ht; simpl in *.
  - by apply elem_of_nil in Ht.
  - unfold mbind, M_bind, bind in Hret.
    destruct (generate_file llm project_path project_type description model f w)
      as [[[]|e] w1] eqn:Hturn; [|done].
    apply elem_of_cons in Ht as [->|Ht]; [|by apply (IH w1 w')].
    destruct (generate_file_written _ _ _ _ _ _ _ Hturn) as (s & Hne & Hs & _ & _).
    split; [done|].
    destruct (generate_files_summary llm project_path project_type description model
                files w1) as (_ & _ & _ & [K _] & _).
    rewrite Hret in K. simpl in K.
    destruct (K _ _ Hs) as [?|[_ [s' ?]]]; eauto.
Qed.

(** ** Failures *)

(** A turn that raises has written nothing: the disk differs from the one
    it found by the directories of line 77 at most. *)
Lemma generate_file_raise (project_path : path)
    (project_type description model file_path : string) (w w2 : world) (e : exn) :
  generate_file llm project_path project_type description model file_path w = (Raise e, w2) →
  (disk w2 = disk w
   ∨ mkdir_parents (disk w) (parent (joinpath project_path file_path)) = inr (disk w2))
  ∧ ∃ l, log w2 = log w ++ l ∧ effects l = [].
Proof.
  intros Hr.
  destruct (generate_file_summary llm project_path project_type description model
              file_path w) as (l & Hl & _ & _ & He).
  rewrite Hr in Hl, He. simpl in Hl, He. split; [|by exists l].
  rewrite generate_file_cases in Hr.
  destruct (mkdir_parents (disk w) (parent (joinpath project_path file_path)))
    as [e'|d1]; [left; by injection Hr as _ <-|].
  right. f_equal.
  destruct (stat d1 (joinpath project_path file_path)) as [[|c]|];
    [by injection Hr as _ <- | |]; simpl in Hr;
    try (destruct (utf8_valid c); [|by injection Hr as _ <-]);
    unfold after_request in Hr;
    destruct (llm _ model _) as [|chunks [|]]; try done; by injection Hr as _ <-.
Qed.

(** A refused request or a broken stream makes the turn raise. *)
Lemma generation_failure_raises (project_path : path)
    (project_type description model file_path : string) (w : world)
    (d1 : gmap path node) :
  let full_path := joinpath project_path file_path in
  mkdir_parents (disk w) (parent full_path) = inr d1 →
  readable (stat (disk w) full_path) = true →
  (∀ chunks,
     llm (log_before_request project_path file_path w (stat (disk w) full_path)) model
       (build_prompt project_type description file_path
          (prior_content (stat (disk w) full_path))) ≠ Stream chunks true) →
  ∃ l, generate_file llm project_path project_type description model file_path w =
         (Raise OpenAIError, World d1 (log w ++ l))
       ∧ effects l = []
       ∧ requests l = [(model, build_prompt project_type description file_path
                                 (prior_content (stat (disk w) full_path)))].
Proof.
  intros full_path Hmk Hread Hllm. rewrite generate_file_cases. fold full_path.
  rewrite Hmk, (mkdir_parent_stat _ _ _ Hmk).
  assert (Hprints : ∀ fs : list string,
            effects (map EPrint fs) = [] ∧ requests (map EPrint fs) = []).
  { induction fs as [|f fs [IH1 IH2]]; done. }
  assert (Hgo : ∃ l,
    after_request llm project_path project_type description model file_path w d1
      (stat (disk w) full_path) = (Raise OpenAIError, World d1 (log w ++ l))
    ∧ effects l = []
    ∧ requests l = [(model, build_prompt project_type description file_path
                              (prior_content (stat (disk w) full_path)))]).
  { unfold after_request. fold full_path.
    destruct (llm _ model _) as [|chunks [|]] eqn:Hans.
    - unfold log_before_request. rewrite <- !app_assoc. eexists.
      split; [done|]. destruct (stat (disk w) full_path); split; reflexivity.
    - by destruct (Hllm chunks).
    - unfold log_after_stream, log_before_request. rewrite <- !app_assoc. eexists.
      split; [done|]. destruct (Hprints (fragments chunks)) as [He Hr].
      unfold effects, requests in *. rewrite !omap_app, He, Hr.
      destruct (stat (disk w) full_path); split; reflexivity. }
  destruct (stat (disk w) full_path) as [[|c]|]; [done | |].
  - simpl in *. by rewrite Hread.
  - done.
Qed.

(** The directory and repository steps run at most [git init]. *)
Lemma setup_project_log (project_path : path) (w w0 : world) (r : result (option bool)) :
  setup_project git project_path w = (r, w0) →
  ∃ l0, log w0 = log w ++ l0
        ∧ (effects l0 = [] ∨ effects l0 = [Ran git_init project_path]).
Proof.
  rewrite setup_project_cases, prepare_directory_cases.
  assert (Hgo : ∀ n w1 l1, log w1 = log w ++ l1 → effects l1 = [] →
    match ensure_repository git project_path n w1 with
    | (Ok _, w2) => (Ok (Some n), w2)
    | (Raise e, w2) => (Raise e, w2)
    end = (r, w0) →
    ∃ l0, log w0 = log w ++ l0
          ∧ (effects l0 = [] ∨ effects l0 = [Ran git_init project_path])).
  { intros n w1 l1 Hl1 He1. rewrite ensure_repository_cases.
    destruct (n || negb (path_exists (disk w1) (project_path ++ [".git"]))).
    - cbv zeta. destruct (git _ git_init project_path (disk w1)).1;
        intros [= <- <-]; simpl; exists (l1 ++ [EPrint ("初始化Git仓库..." +:+ nl);
                                               ERun git_init project_path]);
        rewrite Hl1, <- !app_assoc, effects_app, He1; split; [done | by right | done | by right].
    - intros [= <- <-]. exists l1. split; [done | by left]. }
  destruct (stat (disk w) project_path) as [[|c]|].
  - apply (Hgo false w []); [by rewrite app_nil_r | done].
  - intros [= <- <-]. eexists [_]. split; [done | by left].
  - destruct (mkdir_parents (disk w) project_path) as [e|d1].
    + intros [= <- <-]. eexists [_]. split; [done | by left].
    + apply (Hgo true _ [EPrint (("创建项目目录: " +:+ path_str project_path) +:+ nl);
                         EMkdir project_path]); done.
Qed.

(** C8: no rollback.  (1) When the turn of the N-th file raises, the
    function raises the same error with the world of that turn: the disk
    is the one left by the first N-1 files, plus at most the directories
    made for the N-th, and each of the first N-1 paths still holds a file;
    since the repository steps, the only effects are the writes of the
    first N-1 files, so the other files are not processed and neither
    [git add] nor [git commit] is run.  (2) A refused request or a broken
    stream is such a failure: for a path without [..] whose parent can be
    made and that holds nothing or a file whose bytes are UTF-8, the turn
    sends its request and raises without writing.  (3) When [git add]
    succeeds and [git commit] fails, the function raises with the disk that
    the failed commit left and stops there: each command was run once, the
    failed commit is the last thing done, every file outside [.git] is as
    the loop left it and every listed path still holds a file; when the
    failing commit has changed nothing, the disk at the end is the one
    that [git add] left, what it staged included. *)
Theorem failure_leaves_state (project_path : path) (project_type description : string)
    (commit_message model : string) :
  (∀ (done : list string) (file_path : string) (rest : list string)
     (w w0 w1 w2 : world) (n : bool) (e : exn),
     let m := create_or_modify_project llm git project_path project_type description
                (done ++ file_path :: rest) commit_message model in
     setup_project git project_path w = (Ok (Some n), w0) →
     generate_files llm project_path project_type description model done w0 = (Ok tt, w1) →
     generate_file llm project_path project_type description model file_path w1
       = (Raise e, w2) →
     m w = (Raise e, w2)
     ∧ (disk w2 = disk w1
        ∨ mkdir_parents (disk w1) (parent (joinpath project_path file_path)) = inr (disk w2))
     ∧ (∀ q x, disk w1 !! q = Some x → disk w2 !! q = Some x)
     ∧ (∀ t, t ∈ targets project_path done → ∃ s, stat (disk w2) t = Some (File s))
     ∧ effects (drop (length (log w0)) (log w2)) = map Wrote (targets project_path done)
     ∧ runs_of git_add (effects (trace m w)) = 0
     ∧ runs_of (git_commit commit_message) (effects (trace m w)) = 0)
  ∧ (∀ (file_path : string) (w : world) (d1 : gmap path node),
       dotdot_free (joinpath project_path file_path) = true →
       mkdir_parents (disk w) (parent (joinpath project_path file_path)) = inr d1 →
       readable (stat (disk w) (joinpath project_path file_path)) = true →
       (∀ chunks,
          llm (log_before_request project_path file_path w
                 (stat (disk w) (joinpath project_path file_path))) model
            (build_prompt project_type description file_path
               (prior_content (stat (disk w) (joinpath project_path file_path))))
          ≠ Stream chunks true) →
       ∃ l, generate_file llm project_path project_type description model file_path w
              = (Raise OpenAIError, World d1 (log w ++ l))
            ∧ effects l = []
            ∧ requests l =
                [(model,
                  build_prompt project_type description file_path
                    (prior_content (stat (disk w) (joinpath project_path file_path))))])
  ∧ (∀ (files : list string) (w w0 w1 : world) (n : bool),
       let m := create_or_modify_project llm git project_path project_type description
                  files commit_message model in
       let l1 := log w1 ++ [EPrint ((nl +:+ "添加文件到Git并提交...") +:+ nl)] in
       let l2 := l1 ++ [ERun git_add project_path] in
       let added := (git l1 git_add project_path (disk w1)).2 in
       let left := (git l2 (git_commit commit_message) project_path added).2 in
       setup_project git project_path w = (Ok (Some n), w0) →
       generate_files llm project_path project_type description model files w0 = (Ok tt, w1) →
       (git l1 git_add project_path (disk w1)).1 = true →
       (git l2 (git_commit commit_message) project_path added).1 = false →
       m w = (Raise (CalledProcessError (git_commit commit_message)),
              World left (l2 ++ [ERun (git_commit commit_message) project_path]))
       ∧ runs_of git_add (effects (trace m w)) = 1
       ∧ runs_of (git_commit commit_message) (effects (trace m w)) = 1
       ∧ last (trace m w) = Some (ERun (git_commit commit_message) project_path)
       ∧ (metadata_only git →
          (∀ q x, ¬ (project_path ++ [".git"]) `prefix_of` q →
             disk w1 !! q = Some x → disk (m w).2 !! q = Some x)
          ∧ (∀ t, t ∈ targets project_path files →
               ¬ (project_path ++ [".git"]) `prefix_of` t →
               ∃ s, stat (disk (m w).2) t = Some (File s)))
       ∧ ((∀ h d, (git h (git_commit commit_message) project_path d).1 = false →
                  (git h (git_commit commit_message) project_path d).2 = d) →
          disk (m w).2 = added)).
Proof.
  split_and!.
  - intros done file_path rest w w0 w1 w2 n e m Hsetup Hdone Hturn.
    assert (Hm : m w = (Raise e, w2)).
    { unfold m. rewrite create_or_modify_project_setup, Hsetup.
      unfold after_repository. unfold mbind at 1. unfold M_bind, bind.
      rewrite generate_files_app, Hdone. simpl.
      unfold mbind, M_bind, bind. by rewrite Hturn. }
    destruct (generate_file_raise _ _ _ _ _ _ _ _ Hturn) as (Hdisk & l2 & Hl2 & He2).
    destruct (generate_files_summary llm project_path project_type description model
                done w0) as (l1 & Hl1 & _ & _ & He1).
    rewrite Hdone in Hl1, He1. simpl in Hl1, He1.
    destruct (setup_project_log _ _ _ _ Hsetup) as (l0 & Hl0 & He0).
    assert (Htrace : effects (trace m w) = effects l0 ++ map Wrote (targets project_path done)).
    { rewrite (trace_of _ _ (l0 ++ l1 ++ l2)).
      - by rewrite !effects_app, He1, He2, app_nil_r.
      - rewrite Hm. simpl. by rewrite Hl2, Hl1, Hl0, <- !app_assoc. }
    assert (Hkeep : ∀ q x, disk w1 !! q = Some x → disk w2 !! q = Some x).
    { intros q x Hq. destruct Hdisk as [->|Hmk]; [done|].
      by apply (mkdir_parents_keeps _ _ _ _ _ Hmk). }
    split_and!.
    + done.
    + done.
    + done.
    + intros t Ht.
      destruct (generate_files_written _ _ _ _ _ _ _ Hdone t Ht) as [Hne [s Hs]].
      exists s. unfold stat. destruct t; [done|]. by apply Hkeep.
    + rewrite Hl2, Hl1, <- app_assoc, drop_app_length.
      by rewrite effects_app, He1, He2, app_nil_r.
    + rewrite Htrace, runs_of_app, runs_of_writes.
      destruct He0 as [->| ->]; [done|].
      done.
    + rewrite Htrace, runs_of_app, runs_of_writes.
      destruct He0 as [->| ->]; [done|].
      done.
  - intros file_path w d1 _. apply generation_failure_raises.
  - intros files w w0 w1 n m l1 l2 added left Hsetup Hloop Hadd Hcommit.
    assert (Hm : m w = (Raise (CalledProcessError (git_commit commit_message)),
                        World left (l2 ++ [ERun (git_commit commit_message) project_path]))).
    { unfold m. rewrite create_or_modify_project_setup, Hsetup.
      unfold after_repository. unfold mbind at 1. unfold M_bind, bind.
      rewrite Hloop. unfold mbind at 1. unfold M_bind, bind.
      rewrite commit_all_cases. cbv zeta. fold l1. rewrite Hadd.
      fold l2. fold added. rewrite Hcommit. done. }
    destruct (generate_files_summary llm project_path project_type description model
                files w0) as (lf & Hlf & _ & _ & Hef).
    rewrite Hloop in Hlf, Hef. simpl in Hlf, Hef.
    destruct (setup_project_log _ _ _ _ Hsetup) as (l0 & Hl0 & He0).
    assert (Htrace : trace m w =
              (l0 ++ lf ++ [EPrint ((nl +:+ "添加文件到Git并提交...") +:+ nl);
                            ERun git_add project_path])
              ++ [ERun (git_commit commit_message) project_path]).
    { apply trace_of. rewrite Hm. simpl. unfold l2, l1.
      by rewrite Hlf, Hl0, <- !app_assoc. }
    assert (Heff : effects (trace m w) =
              effects l0 ++ map Wrote (targets project_path files)
                ++ [Ran git_add project_path;
                    Ran (git_commit commit_message) project_path]).
    { rewrite Htrace, !effects_app, Hef. simpl. by rewrite <- !app_assoc. }
    assert (Hdisk : disk (m w).2 = left) by (by rewrite Hm).
    split_and!.
    + done.
    + rewrite Heff, !runs_of_app, runs_of_writes.
      destruct He0 as [->| ->]; done.
    + rewrite Heff, !runs_of_app, runs_of_writes.
      destruct He0 as [->| ->]; unfold runs_of; simpl;
        by rewrite bool_decide_eq_true_2.
    + rewrite Htrace. apply last_snoc.
    + intros Hmeta. rewrite Hdisk.
      assert (Hkept : ∀ q x, ¬ (project_path ++ [".git"]) `prefix_of` q →
                disk w1 !! q = Some x → left !! q = Some x).
      { intros q x Hq Hx. unfold left, added. by rewrite !Hmeta. }
      split; [done|]. intros t Ht Hgit.
      destruct (generate_files_written _ _ _ _ _ _ _ Hloop t Ht) as [Hne [s Hs]].
      exists s. unfold stat. destruct t; [done|]. by apply Hkept.
    + intros Hnoop. rewrite Hdisk. unfold left. by apply Hnoop.
Qed.

End Claims.

(** * Concrete runs *)

Lemma plain_git_metadata_only : metadata_only plain_git.
Proof.
  intros h argv cwd d q Hq. unfold plain_git.
  destruct (bool_decide (argv = git_init)); simpl; [|done].
  apply lookup_insert_ne. intros <-. by apply Hq.
Qed.

Lemma plain_git_init : init_makes_metadata plain_git.
Proof.
  intros h cwd d _. unfold plain_git. simpl. rewrite lookup_insert_eq. by eexists.
Qed.

Lemma target_is_file_no_mutation_witness :
  let m := create_or_modify_project hello_llm plain_git ["work"; "demo"] "python"
             "a single hello-world script" ["main.py"] "init" "gpt-4-turbo-preview" in
  let w := World disk_with_file [] in
  (m w).1 = Ok tt
  ∧ disk (m w).2 = disk w
  ∧ trace m w = [EPrint (not_a_directory_message ["work"; "demo"] +:+ nl)]
  ∧ effects (trace m w) = []
  ∧ requests (trace m w) = []
  ∧ (∀ q, (EMkdir q ∉ trace m w) ∧ (ERead q ∉ trace m w)).
Proof.
  apply (target_is_file_no_mutation hello_llm plain_git ["work"; "demo"] "python"
           "a single hello-world script" ["main.py"] "init" "gpt-4-turbo-preview"
           (World disk_with_file []) "notes").
  reflexivity.
Defined.

Lemma not_a_directory_exit_zero_witness :
  script hello_llm plain_git (Some "sk-test") demo_args (World disk_with_file []) =
    (Ok tt, World disk_with_file [EPrint (not_a_directory_message ["work"; "demo"] +:+ nl)])
  ∧ exit_status (script hello_llm plain_git (Some "sk-test") demo_args
                   (World disk_with_file [])).1 = 0%Z.
Proof.
  apply (not_a_directory_exit_zero hello_llm plain_git (Some "sk-test") demo_args
           (World disk_with_file []) "notes"); reflexivity.
Defined.

Lemma missing_key_exits_witness :
  script hello_llm plain_git None demo_args (World ∅ []) =
    (Raise (SystemExit 1), World ∅ [EPrint (missing_key_message +:+ nl)])
  ∧ exit_status (script hello_llm plain_git None demo_args (World ∅ [])).1 ≠ 0%Z
  ∧ disk (script hello_llm plain_git None demo_args (World ∅ [])).2 = ∅
  ∧ trace (script hello_llm plain_git None demo_args) (World ∅ []) =
      [EPrint (missing_key_message +:+ nl)].
Proof.
  apply (missing_key_exits hello_llm plain_git None demo_args (World ∅ [])).
  reflexivity.
Defined.

(** C1 as stated fails: [main.py] exists before the call, with empty
    content, and the prompt sent for it is the "create" prompt, which is no
    "modify" prompt. *)
Lemma existing_empty_file_gets_create_prompt :
  path_exists versioned_disk ["work"; "demo"; "main.py"] = true
  ∧ requests (trace (generate_file hello_llm ["work"; "demo"] "python" "a script"
                       "gpt-4-turbo-preview" "main.py") (World versioned_disk []))
    = [("gpt-4-turbo-preview",
        prompt_text "python" Create "a script" "main.py" EmptyString)]
  ∧ ¬ signals "python" "a script" "main.py" Modify
        (prompt_text "python" Create "a script" "main.py" EmptyString).
Proof.
  split_and!; [reflexivity | reflexivity |].
  intros [ctx H]. apply prompt_text_verb in H. discriminate H.
Qed.

(** A file with a Windows line ending is sent with a line feed in its
    place: the prompt carries the text as read, not the bytes of the file. *)
Lemma crlf_file_is_sent_with_line_feeds :
  stat binary_disk ["work"; "demo"; "run.bat"] = Some (File crlf_text)
  ∧ requests (trace (generate_file hello_llm ["work"; "demo"] "python" "a script"
                       "gpt-4-turbo-preview" "run.bat") (World binary_disk []))
    = [("gpt-4-turbo-preview",
        prompt_text "python" Modify "a script" "run.bat" ("a" +:+ nl +:+ "b"))]
  ∧ crlf_text ≠ "a" +:+ nl +:+ "b".
Proof. split_and!; [reflexivity | reflexivity | discriminate]. Qed.

Lemma prompt_verb_follows_prior_content_witness :
  signals "python" "a script" "notes.md" Modify
    (prompt_text "python" Modify "a script" "notes.md" "draft")
  ↔ ∃ c, c ≠ EmptyString
         ∧ stat versioned_disk (joinpath ["work"; "demo"] "notes.md") = Some (File c).
Proof.
  apply (prompt_verb_follows_prior_content hello_llm ["work"; "demo"] "python" "a script"
           "gpt-4-turbo-preview" "notes.md" (World versioned_disk [])
           "gpt-4-turbo-preview" (prompt_text "python" Modify "a script" "notes.md" "draft")).
  - reflexivity.
  - vm_compute. apply list_elem_of_here.
Defined.

Lemma file_holds_streamed_text_witness :
  ∃ w', generate_file hello_llm ["work"; "demo"] "python" "a script"
          "gpt-4-turbo-preview" "main.py" (World ∅ []) = (Ok tt, w')
        ∧ stat (disk w') ["work"; "demo"; "main.py"] = Some (File "print(1)").
Proof.
  apply (proj2 (file_holds_streamed_text hello_llm ["work"; "demo"] "python" "a script"
                  "gpt-4-turbo-preview" "main.py" (World ∅ []))
           (<[["work"; "demo"] := Dir]> (<[["work"] := Dir]> ∅))
           [text_chunk EmptyString; text_chunk "print("; text_chunk "1)";
            Chunk (Some [Choice (Some (Delta None))])]).
  - reflexivity.
  - reflexivity.
  - reflexivity.
  - reflexivity.
Defined.

Lemma files_in_order_then_one_commit_witness :
  let m := create_or_modify_project hello_llm plain_git ["work"; "demo"] "python"
             "a script" ["main.py"; "README.md"] "init" "gpt-4-turbo-preview" in
  effects (trace m (World ∅ [])) =
    [Ran git_init ["work"; "demo"];
     Wrote ["work"; "demo"; "main.py"]; Wrote ["work"; "demo"; "README.md"];
     Ran git_add ["work"; "demo"]; Ran (git_commit "init") ["work"; "demo"]]
  ∧ runs_of git_add (effects (trace m (World ∅ []))) = 1
  ∧ runs_of (git_commit "init") (effects (trace m (World ∅ []))) = 1.
Proof.
  intros m.
  assert (Hret : (m (World ∅ [])).1 = Ok tt) by (vm_compute; reflexivity).
  assert (Hdir : ∀ c, stat (disk (World ∅ [])) ["work"; "demo"] ≠ Some (File c)).
  { intros c. vm_compute. discriminate. }
  pose proof (proj2 (proj2 (files_in_order_then_one_commit hello_llm plain_git
                              ["work"; "demo"] "python" "a script"
                              ["main.py"; "README.md"] "init" "gpt-4-turbo-preview"
                              (World ∅ []))) Hret Hdir) as H.
  vm_compute in H. vm_compute. exact H.
Defined.

Lemma init_exactly_when_needed_witness :
  runs_of git_init
    (effects (trace (create_or_modify_project hello_llm plain_git ["work"; "demo"]
                       "python" "a script" ["main.py"] "init" "gpt-4-turbo-preview")
                (World versioned_disk []))) = 0.
Proof.
  apply (proj2 (proj2 (init_exactly_when_needed hello_llm plain_git ["work"; "demo"]
                         "python" "a script" ["main.py"] "init" "gpt-4-turbo-preview"
                         (World versioned_disk [])))); reflexivity.
Defined.

Lemma new_project_is_set_up_witness :
  ∃ w', setup_project plain_git ["work"; "demo"] (World ∅ []) = (Ok (Some true), w')
        ∧ path_exists (disk w') ["work"; "demo"] = true
        ∧ path_exists (disk w') (["work"; "demo"] ++ [".git"]) = true.
Proof.
  assert (Hnew : path_exists (disk (World ∅ [])) ["work"; "demo"] = false)
    by reflexivity.
  destruct (new_project_is_set_up plain_git ["work"; "demo"] (World ∅ [])
              plain_git_metadata_only plain_git_init Hnew) as [HA HB].
  destruct HB as [w' Hw'].
  - intros q c _. vm_compute. discriminate.
  - intros h d. reflexivity.
  - exists w'. destruct (HA _ _ Hw') as (_ & Hp & _ & Hg & _). done.
Defined.


Lemma failure_leaves_state_witness :
  let m := create_or_modify_project second_fails_llm plain_git ["work"; "demo"] "python"
             "a script" (["a.py"] ++ "b.py" :: ["c.py"]) "init" "gpt-4-turbo-preview" in
  let m' := create_or_modify_project hello_llm commit_fails_git ["work"; "demo"] "python"
              "a script" ["a.py"] "init" "gpt-4-turbo-preview" in
  ((m fresh).1 = Raise OpenAIError
   ∧ disk (m fresh).2 !! ["work"; "demo"; "a.py"] = Some (File "x = 1")
   ∧ runs_of (git_commit "init") (effects (trace m fresh)) = 0)
  ∧ (∃ l, generate_file second_fails_llm ["work"; "demo"] "python" "a script"
            "gpt-4-turbo-preview" "b.py" after_first
          = (Raise OpenAIError, World (disk after_first) (log after_first ++ l))
          ∧ effects l = [])
  ∧ ((m' fresh).1 = Raise (CalledProcessError (git_commit "init"))
     ∧ runs_of git_add (effects (trace m' fresh)) = 1
     ∧ disk (m' fresh).2 !! ["work"; "demo"; "a.py"] = Some (File "print(1)")
     ∧ disk (m' fresh).2 = disk after_loop').
Proof.
  intros m m'. split; [|split].
  - assert (H0 : setup_project plain_git ["work"; "demo"] fresh
                 = (Ok (Some true), after_setup)) by (vm_compute; reflexivity).
    assert (H1 : generate_files second_fails_llm ["work"; "demo"] "python" "a script"
                   "gpt-4-turbo-preview" ["a.py"] after_setup = (Ok tt, after_first))
      by (vm_compute; reflexivity).
    assert (H2 : generate_file second_fails_llm ["work"; "demo"] "python" "a script"
                   "gpt-4-turbo-preview" "b.py" after_first
                 = (Raise OpenAIError, after_second))
      by (vm_compute; reflexivity).
    destruct (proj1 (failure_leaves_state second_fails_llm plain_git ["work"; "demo"]
                       "python" "a script" "init" "gpt-4-turbo-preview")
                ["a.py"] "b.py" ["c.py"] fresh after_setup after_first after_second
                true OpenAIError H0 H1 H2)
      as (Hm & _ & Hkeep & _ & _ & _ & Hcommit).
    split_and!; [exact (f_equal fst Hm) | | exact Hcommit].
    assert (Hw : (m fresh).2 = after_second) by exact (f_equal snd Hm).
    rewrite Hw. apply Hkeep. vm_compute. reflexivity.
  - assert (H0 : dotdot_free (joinpath ["work"; "demo"] "b.py") = true) by reflexivity.
    assert (H1 : mkdir_parents (disk after_first) (parent (joinpath ["work"; "demo"] "b.py"))
                 = inr (disk after_first)) by reflexivity.
    assert (H2 : readable (stat (disk after_first) (joinpath ["work"; "demo"] "b.py")) = true)
      by reflexivity.
    assert (H3 : ∀ chunks,
              second_fails_llm
                (log_before_request ["work"; "demo"] "b.py" after_first
                   (stat (disk after_first) (joinpath ["work"; "demo"] "b.py")))
                "gpt-4-turbo-preview"
                (build_prompt "python" "a script" "b.py"
                   (prior_content (stat (disk after_first)
                                     (joinpath ["work"; "demo"] "b.py"))))
              ≠ Stream chunks true).
    { intros chunks H. vm_compute in H. discriminate H. }
    destruct (proj1 (proj2 (failure_leaves_state second_fails_llm plain_git
                              ["work"; "demo"] "python" "a script" "init"
                              "gpt-4-turbo-preview"))
                "b.py" after_first (disk after_first) H0 H1 H2 H3)
      as (l & Hl & He & _).
    exists l. split; [exact Hl | exact He].
  - assert (H0 : setup_project commit_fails_git ["work"; "demo"] fresh
                 = (Ok (Some true), after_setup')) by (vm_compute; reflexivity).
    assert (H1 : generate_files hello_llm ["work"; "demo"] "python" "a script"
                   "gpt-4-turbo-preview" ["a.py"] after_setup' = (Ok tt, after_loop'))
      by (vm_compute; reflexivity).
    destruct (proj2 (proj2 (failure_leaves_state hello_llm commit_fails_git
                              ["work"; "demo"] "python" "a script" "init"
                              "gpt-4-turbo-preview"))
                ["a.py"] fresh after_setup' after_loop' true H0 H1)
      as (Hm & Hadd & _ & _ & _ & Hsame); [reflexivity | reflexivity |].
    assert (Hdisk : disk (m' fresh).2 = disk after_loop').
    { apply Hsame. intros h d _. reflexivity. }
    split_and!; [exact (f_equal fst Hm) | exact Hadd | | exact Hdisk].
    rewrite Hdisk. reflexivity.
Defined.


(** * Further properties *)

(** ** The stream loop (lines 100-112) *)

Lemma printed_app (l1 l2 : list event) : printed (l1 ++ l2) = printed l1 ++ printed l2.
Proof. apply omap_app. Qed.

Lemma printed_prints (texts : list string) : printed (map EPrint texts) = texts.
Proof. induction texts as [|t texts IH]; simpl; [done | by f_equal]. Qed.

Lemma fragments_app (chunks1 chunks2 : list chunk) :
  fragments (chunks1 ++ chunks2) = fragments chunks1 ++ fragments chunks2.
Proof. apply omap_app. Qed.

Section Further.
Variable llm : list event → string → string → response.
Variable git : list event → list string → path → gmap path node → bool * gmap path node.

(** X1: what a request that returns has echoed on standard output,
    fragment by fragment, concatenates to exactly the text it returns (the
    text that line 116 writes); the disk is not touched while streaming. *)
Theorem stream_echo_is_result (model prompt : string) (w w' : world) (s : string) :
  stream_completion llm model prompt w = (Ok s, w') →
  concat_text (printed (trace (stream_completion llm model prompt) w)) = s
  ∧ Forall (λ t, t ≠ EmptyString) (printed (trace (stream_completion llm model prompt) w))
  ∧ disk w' = disk w.
Proof.
  unfold trace, stream_completion.
  destruct (llm (log w) model prompt) as [|chunks [|]]; [done | | ].
  - unfold read_stream, bind. rewrite consume_spec. simpl.
    intros [= <- <-]. simpl.
    rewrite <- app_assoc, drop_app_length. simpl. rewrite printed_prints.
    split_and!; [done | | done].
    unfold fragments. clear. induction chunks as [|c chunks IH]; simpl; [done|].
    destruct (chunk_content c) as [t|] eqn:Hc; [|done].
    constructor; [|done]. unfold chunk_content in Hc.
    destruct (choices c) as [[|ch l]|]; [done | | done].
    destruct (choice_delta ch) as [dl|]; [|done].
    destruct (content dl) as [[|x]|]; [done | | done].
    destruct (truthy x) eqn:Hx; [|done]. injection Hc as <-.
    by apply truthy_true.
  - unfold read_stream, bind. rewrite consume_spec. simpl. done.
Qed.

(** X2: reading a stream is reading its first part and then the rest from
    the text gathered so far; the prints come in the same order. *)
Theorem consume_app (chunks1 chunks2 : list chunk) (acc : string) (w : world) :
  consume (chunks1 ++ chunks2) acc w = bind (consume chunks1 acc) (consume chunks2) w.
Proof.
  unfold bind. rewrite !consume_spec. simpl.
  by rewrite fragments_app, concat_text_app, append_assoc, map_app, app_assoc.
Qed.

(** ** Paths that cannot be made (lines 59 and 77) *)

(** The error of [mkdir] names the whole path: [FileExistsError] when the
    path itself is a regular file, [NotADirectoryError] when a component
    above it is. *)
Lemma mkdir_from_error (rest : list string) : ∀ (cur : path) (d : gmap path node) (e : exn),
  mkdir_from cur rest d = inl e →
  (e = FileExistsError (cur ++ rest) ∧ ∃ c, d !! (cur ++ rest) = Some (File c))
  ∨ e = NotADirectoryError (cur ++ rest).
Proof.
  induction rest as [|x rest IH]; intros cur d e H; simpl in H; [done|].
  assert (Hstep : ∀ d0 : gmap path node,
    (rest ≠ [] → d0 !! (cur ++ x :: rest) = d !! (cur ++ x :: rest)) →
    mkdir_from (cur ++ [x]) rest d0 = inl e →
    (e = FileExistsError (cur ++ x :: rest) ∧ ∃ c, d !! (cur ++ x :: rest) = Some (File c))
    ∨ e = NotADirectoryError (cur ++ x :: rest)).
  { intros d0 Hsame H0.
    destruct (IH _ _ _ H0) as [[-> [c Hc]]| ->]; rewrite <- app_assoc in *; simpl in *.
    - left. split; [done|]. exists c. rewrite <- Hsame; [done|].
      intros ->. simpl in H0. done.
    - by right. }
  destruct (d !! (cur ++ [x])) as [[|c]|] eqn:Hhere.
  - by apply (Hstep d).
  - injection H as <-. destruct rest as [|y rest].
    + left. split; [done|]. by exists c.
    + right. by rewrite <- app_assoc.
  - apply (Hstep (<[cur ++ [x] := Dir]> d)); [|done].
    intros Hne. apply lookup_insert_ne. intros Heq.
    apply (f_equal length) in Heq. rewrite !length_app in Heq. simpl in Heq.
    destruct rest; [done | simpl in Heq; lia].
Qed.

(** [mkdir] raises exactly when a component of the path is a regular file. *)
Lemma mkdir_parents_blocked (d : gmap path node) (p q : path) (c : string) :
  q `prefix_of` p → stat d q = Some (File c) → ∃ e, mkdir_parents d p = inl e.
Proof.
  intros Hp Hq. destruct (mkdir_parents d p) as [e|d'] eqn:Hmk; [by exists e|].
  pose proof (mkdir_parents_made _ _ _ q Hmk Hp) as Hd.
  pose proof (mkdir_parents_stat _ _ _ _ _ Hmk Hq) as Hf.
  unfold is_dir in Hd. by rewrite Hf in Hd.
Qed.

(** X3: when the target path does not exist and a component above it is a
    regular file, the function prints that it creates the directory and
    then raises [NotADirectoryError] for the target path at line 59: the
    disk is unchanged, no command is run and no request is made; the
    process ends with exit status 1. *)
Theorem blocked_target_raises (key : option string) (a : args) (w : world)
    (q : path) (c : string) :
  key_missing key = false →
  path_exists (disk w) (arg_path a) = false →
  q `prefix_of` arg_path a →
  stat (disk w) q = Some (File c) →
  script llm git key a w =
    (Raise (NotADirectoryError (arg_path a)),
     World (disk w)
       (log w ++ [EPrint (("创建项目目录: " +:+ path_str (arg_path a)) +:+ nl)]))
  ∧ exit_status (script llm git key a w).1 = 1%Z.
Proof.
  intros Hkey Hnew Hp Hq.
  assert (Hst : stat (disk w) (arg_path a) = None).
  { unfold path_exists in Hnew. by destruct (stat (disk w) (arg_path a)). }
  destruct (mkdir_parents_blocked _ _ _ _ Hp Hq) as [e Hmk].
  assert (He : e = NotADirectoryError (arg_path a)).
  { destruct (mkdir_from_error _ _ _ _ Hmk) as [[-> [c' Hc']]| ->]; [|done].
    simpl in Hc'. unfold stat in Hst. destruct (arg_path a); [done|]. congruence. }
  subst e.
  assert (Heq : script llm git key a w =
    (Raise (NotADirectoryError (arg_path a)),
     World (disk w)
       (log w ++ [EPrint (("创建项目目录: " +:+ path_str (arg_path a)) +:+ nl)]))).
  { unfold script, main. rewrite Hkey.
    rewrite create_or_modify_project_from, prepare_directory_cases, Hst, Hmk. done. }
  split; [done | by rewrite Heq].
Qed.

(** X4: a file argument whose path is an existing directory (the project
    directory itself for [.] or the empty string) makes its turn raise
    before any request is sent and before anything is written: with the
    parent in place the error is [IsADirectoryError] from line 82. *)
Theorem directory_as_file_raises (project_path : path)
    (project_type description model file_path : string) (w : world) :
  let full_path := joinpath project_path file_path in
  let turn := generate_file llm project_path project_type description model file_path in
  stat (disk w) full_path = Some Dir →
  (∃ e, (turn w).1 = Raise e)
  ∧ requests (trace turn w) = []
  ∧ effects (trace turn w) = []
  ∧ (∀ d1, mkdir_parents (disk w) (parent full_path) = inr d1 →
       turn w = (Raise (IsADirectoryError full_path),
                 World d1 (log w ++ [EMkdir (parent full_path)]))).
Proof.
  intros full_path turn Hdir. unfold turn.
  assert (Hreq : requests (trace (generate_file llm project_path project_type description
                                    model file_path) w) = []).
  { rewrite generate_file_requests. fold full_path. rewrite Hdir.
    by destruct (mkdir_parents (disk w) (parent full_path)). }
  destruct (generate_file_summary llm project_path project_type description model
              file_path w) as (l & Hl & _ & _ & He).
  rewrite (trace_of _ _ _ Hl) in Hreq |- *.
  pose proof (generate_file_cases llm project_path project_type description model
                file_path w) as Hcases.
  fold full_path in Hcases.
  destruct (mkdir_parents (disk w) (parent full_path)) as [e|d1] eqn:Hmk.
  - rewrite Hcases in He |- *. simpl in He.
    split_and!; [by exists e | done | done | done].
  - rewrite (mkdir_parent_stat _ _ _ Hmk), Hdir in Hcases.
    rewrite Hcases in He |- *. simpl in He.
    split_and!; [by eexists | done | done |]. by intros d1' [= <-].
Qed.

(** X5: a file argument placed under a regular file makes its turn raise
    at line 77, before anything is read, requested or written, and the
    world is left as it was; the error is [FileExistsError] only when the
    parent itself is a regular file, and [NotADirectoryError] otherwise. *)
Theorem file_under_regular_file_raises (project_path : path)
    (project_type description model file_path : string) (w : world)
    (q : path) (c : string) :
  let full_path := joinpath project_path file_path in
  let turn := generate_file llm project_path project_type description model file_path in
  q `prefix_of` parent full_path →
  stat (disk w) q = Some (File c) →
  (turn w = (Raise (FileExistsError (parent full_path)), w)
     ∧ (∃ c', stat (disk w) (parent full_path) = Some (File c'))
   ∨ turn w = (Raise (NotADirectoryError (parent full_path)), w))
  ∧ trace turn w = [].
Proof.
  intros full_path turn Hp Hq. unfold turn, trace.
  rewrite generate_file_cases. fold full_path.
  destruct (mkdir_parents_blocked _ _ _ _ Hp Hq) as [e Hmk]. rewrite Hmk. simpl.
  split; [|by rewrite drop_all].
  destruct (mkdir_from_error _ _ _ _ Hmk) as [[-> [c' Hc']]| ->]; simpl in *.
  - left. split; [done|]. exists c'. unfold stat.
    destruct (parent full_path); [done | done].
  - by right.
Qed.

(** ** The directory and repository steps (lines 54-70) *)

Lemma is_dir_after_git (h : list event) (argv : list string) (p : path)
    (d : gmap path node) :
  metadata_only git → is_dir d p = true → is_dir (git h argv p d).2 p = true.
Proof.
  intros Hmeta. unfold is_dir, stat. destruct p as [|x p]; [done|].
  rewrite Hmeta; [done|]. by apply not_under_metadata.
Qed.

(** Once the two steps have returned, the project is a directory with a
    [.git] entry. *)
Lemma setup_leaves_repository (project_path : path) (w w1 : world) (n : bool) :
  metadata_only git → init_makes_metadata git →
  setup_project git project_path w = (Ok (Some n), w1) →
  is_dir (disk w1) project_path = true
  ∧ path_exists (disk w1) (project_path ++ [".git"]) = true.
Proof.
  intros Hmeta Hinit. rewrite setup_project_cases, prepare_directory_cases.
  assert (Hgo : ∀ b w0, is_dir (disk w0) project_path = true →
    match ensure_repository git project_path b w0 with
    | (Ok _, w2) => (Ok (Some b), w2)
    | (Raise e, w2) => (Raise e, w2)
    end = (Ok (Some n), w1) →
    is_dir (disk w1) project_path = true
    ∧ path_exists (disk w1) (project_path ++ [".git"]) = true).
  { intros b w0 Hd. rewrite ensure_repository_cases.
    destruct (b || negb (path_exists (disk w0) (project_path ++ [".git"]))) eqn:Hb.
    - cbv zeta. destruct (git _ git_init project_path (disk w0)).1 eqn:Hok; [|done].
      intros [= <- <-]. simpl. split; [by apply is_dir_after_git|].
      unfold path_exists. rewrite stat_snoc. by destruct (Hinit _ _ _ Hok) as [x ->].
    - intros [= <- <-]. split; [done|].
      apply orb_false_iff in Hb as [_ Hb]. by apply negb_false_iff in Hb. }
  destruct (stat (disk w) project_path) as [[|c]|] eqn:Hst.
  - apply Hgo. unfold is_dir. by rewrite Hst.
  - done.
  - destruct (mkdir_parents (disk w) project_path) as [e|d1] eqn:Hmk; [done|].
    apply Hgo. simpl. by apply (mkdir_parents_made _ _ _ _ Hmk).
Qed.

(** X6: the directory and repository steps are idempotent: run again in
    the world they have left, they change nothing, print nothing and run
    no command; in particular [git init] is not run a second time. *)
Theorem setup_twice_is_setup_once (project_path : path) (w w1 : world) (n : bool) :
  metadata_only git → init_makes_metadata git →
  setup_project git project_path w = (Ok (Some n), w1) →
  setup_project git project_path w1 = (Ok (Some false), w1).
Proof.
  intros Hmeta Hinit Hsetup.
  destruct (setup_leaves_repository _ _ _ _ Hmeta Hinit Hsetup) as [Hd Hg].
  rewrite setup_project_cases, prepare_directory_cases.
  unfold is_dir in Hd. destruct (stat (disk w1) project_path) as [[|c]|]; [|done|done].
  rewrite ensure_repository_cases, Hg. done.
Qed.

(** ** Commands that fail (lines 70 and 122) *)

(** X7: when [git init] is due and exits with a non-zero status, the
    function raises [CalledProcessError] for it at line 70: no request is
    sent to the model, no file is written, and neither [git add] nor
    [git commit] is run. *)
Theorem init_failure_stops_before_generation (project_path : path)
    (project_type description : string) (files : list string)
    (commit_message model : string) (w : world) :
  let m := create_or_modify_project llm git project_path project_type description files
             commit_message model in
  init_expected project_path (disk w) = true →
  (∀ h d, (git h git_init project_path d).1 = false) →
  (m w).1 = Raise (CalledProcessError git_init)
  ∧ requests (trace m w) = []
  ∧ effects (trace m w) = [Ran git_init project_path].
Proof.
  intros m Hexp Hfail. unfold m, trace, init_expected in *.
  rewrite create_or_modify_project_from, prepare_directory_cases.
  destruct (stat (disk w) project_path) as [[|c]|] eqn:Hst; [| done |].
  - rewrite from_repository_cases. simpl. rewrite Hexp. cbv zeta. rewrite Hfail. simpl.
    rewrite <- app_assoc, drop_app_length. done.
  - destruct (mkdir_parents (disk w) project_path) as [e|d1]; [done|].
    rewrite from_repository_cases. simpl. rewrite Hfail. simpl.
    rewrite <- !app_assoc, drop_app_length. done.
Qed.

(** ** Requests to the model (lines 101-105) *)

Lemma requests_app (l1 l2 : list event) : requests (l1 ++ l2) = requests l1 ++ requests l2.
Proof. apply omap_app. Qed.

(** One turn sends at most one request, for the model asked for, and
    exactly one when it returns. *)
Lemma generate_file_requests_log (project_path : path)
    (project_type description model file_path : string) (w : world) :
  ∃ l,
    log (generate_file llm project_path project_type description model file_path w).2
      = log w ++ l
    ∧ Forall (λ r, r.1 = model) (requests l)
    ∧ length (requests l) ≤ 1
    ∧ ((generate_file llm project_path project_type description model file_path w).1
         = Ok tt → length (requests l) = 1).
Proof.
  destruct (generate_file_summary llm project_path project_type description model
              file_path w) as (l & Hl & _ & _ & _).
  exists l. split; [done|].
  pose proof (generate_file_requests llm project_path project_type description model
                file_path w) as Hreq.
  rewrite (trace_of _ _ _ Hl) in Hreq. simpl in Hreq. rewrite Hreq.
  rewrite generate_file_cases.
  destruct (mkdir_parents (disk w) (parent (joinpath project_path file_path)))
    as [e|d1] eqn:Hmk; [by split_and!; simpl; try lia|].
  rewrite (mkdir_parent_stat _ _ _ Hmk).
  destruct (stat (disk w) (joinpath project_path file_path)) as [[|c]|]; simpl;
    try destruct (utf8_valid c); simpl;
    split_and!; try done; try lia; by repeat constructor.
Qed.

Lemma generate_files_requests_log (project_path : path)
    (project_type description model : string) (files : list string) : ∀ w : world,
  ∃ l,
    log (generate_files llm project_path project_type description model files w).2
      = log w ++ l
    ∧ Forall (λ r, r.1 = model) (requests l)
    ∧ length (requests l) ≤ length files
    ∧ ((generate_files llm project_path project_type description model files w).1
         = Ok tt → length (requests l) = length files).
Proof.
  induction files as [|f files IH]; intros w; simpl.
  - exists []. rewrite app_nil_r. split_and!; done.
  - unfold mbind, M_bind, bind.
    destruct (generate_file_requests_log project_path project_type description model f w)
      as (l1 & Hl1 & Hm1 & Hle1 & Hok1).
    destruct (generate_file llm project_path project_type description model f w)
      as [[[]|e] w1]; simpl in *.
    + destruct (IH w1) as (l2 & Hl2 & Hm2 & Hle2 & Hok2).
      exists (l1 ++ l2). rewrite Hl2, Hl1, <- app_assoc, requests_app, length_app.
      split_and!; [done | by apply Forall_app | lia |].
      intros Hret. rewrite (Hok2 Hret), (Hok1 eq_refl). done.
    + exists l1. split_and!; [done | done | lia | done].
Qed.

Lemma after_repository_requests_log (project_path : path)
    (project_type description : string) (files : list string)
    (commit_message model : string) (n : bool) (w : world) :
  ∃ l,
    log (after_repository llm git project_path project_type description files
           commit_message model n w).2 = log w ++ l
    ∧ Forall (λ r, r.1 = model) (requests l)
    ∧ length (requests l) ≤ length files
    ∧ ((after_repository llm git project_path project_type description files
          commit_message model n w).1 = Ok tt → length (requests l) = length files).
Proof.
  unfold after_repository, mbind, M_bind, bind.
  destruct (generate_files_requests_log project_path project_type description model
              files w) as (l & Hl & Hm & Hle & Hok).
  destruct (generate_files llm project_path project_type description model files w)
    as [[[]|e] w3]; simpl in *; [|by exists l].
  rewrite commit_all_cases. cbv zeta.
  destruct (git _ git_add project_path (disk w3)).1.
  - destruct (git _ (git_commit commit_message) project_path _).1; simpl.
    + eexists (l ++ [_; _; _; _]). rewrite Hl, <- !app_assoc. split; [done|].
      rewrite requests_app. simpl. rewrite app_nil_r. split_and!; [done | done | auto].
    + eexists (l ++ [_; _; _]). rewrite Hl, <- !app_assoc. split; [done|].
      rewrite requests_app. simpl. rewrite app_nil_r. split_and!; [done | done | done].
  - simpl. eexists (l ++ [_; _]). rewrite Hl, <- !app_assoc. split; [done|].
    rewrite requests_app. simpl. rewrite app_nil_r. split_and!; [done | done | done].
Qed.

(** X8: the function sends at most one request per listed file, each for
    the model it was given, and exactly one per file when it returns with
    the target a directory; with an empty list it sends none.  The steps
    around the loop send no request. *)
Theorem one_request_per_file (project_path : path) (project_type description : string)
    (files : list string) (commit_message model : string) (w : world) :
  let m := create_or_modify_project llm git project_path project_type description files
             commit_message model in
  Forall (λ r, r.1 = model) (requests (trace m w))
  ∧ length (requests (trace m w)) ≤ length files
  ∧ ((m w).1 = Ok tt → (∀ c, stat (disk w) project_path ≠ Some (File c)) →
     length (requests (trace m w)) = length files).
Proof.
  intros m. unfold m.
  assert (Hfrom : ∀ n w1 l1, log w1 = log w ++ l1 → requests l1 = [] →
    ∃ l, log (from_repository llm git project_path project_type description files
                commit_message model n w1).2 = log w ++ l
         ∧ Forall (λ r, r.1 = model) (requests l)
         ∧ length (requests l) ≤ length files
         ∧ ((from_repository llm git project_path project_type description files
               commit_message model n w1).1 = Ok tt →
            length (requests l) = length files)).
  { intros n w1 l1 Hl1 Hr1. rewrite from_repository_cases.
    destruct (n || negb (path_exists (disk w1) (project_path ++ [".git"]))).
    - cbv zeta. destruct (git _ git_init project_path (disk w1)).1.
      + match goal with
        | |- context [after_repository _ _ _ _ _ _ _ _ _ ?w2] =>
            destruct (after_repository_requests_log project_path project_type
                        description files commit_message model n w2)
              as (l & Hl & Hm & Hle & Hok)
        end.
        simpl in Hl. exists (l1 ++ [EPrint ("初始化Git仓库..." +:+ nl);
                                     ERun git_init project_path] ++ l).
        split_and!.
        * rewrite Hl, Hl1, <- !app_assoc. done.
        * rewrite !requests_app, Hr1. done.
        * rewrite !requests_app, Hr1. done.
        * intros H. rewrite !requests_app, Hr1. by apply Hok.
      + simpl. eexists (l1 ++ [_; _]). rewrite Hl1, <- !app_assoc. split; [done|].
        rewrite requests_app, Hr1. simpl. split_and!; [done | lia | done].
    - destruct (after_repository_requests_log project_path project_type description
                  files commit_message model n w1) as (l & Hl & Hm & Hle & Hok).
      exists (l1 ++ l). split_and!.
      + rewrite Hl, Hl1, <- app_assoc. done.
      + rewrite requests_app, Hr1. done.
      + rewrite requests_app, Hr1. done.
      + intros H. rewrite requests_app, Hr1. by apply Hok. }
  assert (Hall : ∃ l,
    log (create_or_modify_project llm git project_path project_type description files
           commit_message model w).2 = log w ++ l
    ∧ Forall (λ r, r.1 = model) (requests l)
    ∧ length (requests l) ≤ length files
    ∧ ((create_or_modify_project llm git project_path project_type description files
          commit_message model w).1 = Ok tt →
       (∀ c, stat (disk w) project_path ≠ Some (File c)) →
       length (requests l) = length files)).
  { rewrite create_or_modify_project_from, prepare_directory_cases.
    destruct (stat (disk w) project_path) as [[|c]|] eqn:Hst.
    - destruct (Hfrom false w []) as (l & Hl & Hm & Hle & Hok);
        [by rewrite app_nil_r | done |].
      exists l. split_and!; [done | done | done | auto].
    - eexists [_]. split; [done|]. simpl. split_and!; [done | lia |].
      intros _ H. by destruct (H c).
    - destruct (mkdir_parents (disk w) project_path) as [e|d1].
      + eexists [_]. split; [done|]. simpl. split_and!; [done | lia | done].
      + match goal with
        | |- context [from_repository _ _ _ _ _ _ _ _ true ?w1] =>
            destruct (Hfrom true w1
                        [EPrint (("创建项目目录: " +:+ path_str project_path) +:+ nl);
                         EMkdir project_path]) as (l & Hl & Hm & Hle & Hok)
        end; [done | done |].
        exists l. split_and!; [done | done | done | auto]. }
  destruct Hall as (l & Hl & Hm & Hle & Hok).
  rewrite (trace_of _ _ _ Hl). done.
Qed.

(** ** Reading back what was written (lines 79-83 after lines 115-116) *)

(** X9: when a file is listed twice in a row, the second turn reads back
    what the first turn wrote (a text without carriage return, which the
    reading of line 83 would turn into a newline): its request carries
    that text as the existing content, as a "modify" prompt when the text
    is not empty.  The text written is a [str], so its bytes are UTF-8;
    bytes that are not would stop the second turn before its request. *)
Theorem second_turn_sees_first_output (project_path : path)
    (project_type description model file_path : string) (w w1 : world) :
  let full_path := joinpath project_path file_path in
  let turn := generate_file llm project_path project_type description model file_path in
  turn w = (Ok tt, w1) →
  ∃ s, EWrite full_path s ∈ trace turn w
       ∧ (no_carriage_return s = true →
          requests (trace turn w1) =
            if utf8_valid s
            then [(model, build_prompt project_type description file_path s)]
            else [])
       ∧ (s ≠ EmptyString →
          build_prompt project_type description file_path s =
            prompt_text project_type Modify description file_path s).
Proof.
  intros full_path turn Hret. unfold turn in *.
  destruct (generate_file_written _ _ _ _ _ _ _ _ Hret) as (s & Hne & Hs & Hw & Hdirs).
  fold full_path in Hne, Hs, Hw, Hdirs.
  exists s. split_and!; [done | |].
  - intros Hcr. rewrite generate_file_requests. fold full_path.
    destruct (mkdir_parents_again _ _ Hdirs) as [d' ->].
    unfold stat. destruct full_path; [done|]. rewrite Hs. simpl.
    by rewrite (universal_newlines_plain s Hcr).
  - intros Hs'. unfold build_prompt, action.
    apply truthy_true in Hs'. by rewrite Hs'.
Qed.

(** X10: when the loop returns, every listed path holds a regular file,
    also a path listed more than once and a path that held something else
    before. *)
Theorem listed_files_exist_after_loop (project_path : path)
    (project_type description model : string) (files : list string) :
  ∀ w w' : world,
    generate_files llm project_path project_type description model files w = (Ok tt, w') →
    ∀ t, t ∈ targets project_path files → ∃ s, stat (disk w') t = Some (File s).
Proof.
  intros w w' Hret t Ht.
  destruct (generate_files_written _ _ _ _ _ _ _ _ Hret t Ht) as [Hne [s Hs]].
  exists s. unfold stat. by destruct t.
Qed.

(** ** The prompt (lines 86-95) *)

Lemma string_length_append (s t : string) :
  String.length (s +:+ t) = String.length s + String.length t.
Proof. induction s as [|c s IH]; [done|]. rewrite append_cons. simpl. by rewrite IH. Qed.

Lemma append_inv_tail (t : string) : ∀ s1 s2 : string, s1 +:+ t = s2 +:+ t → s1 = s2.
Proof.
  induction s1 as [|c s1 IH]; intros [|c2 s2] H.
  - done.
  - apply (f_equal String.length) in H.
    rewrite append_nil_l, append_cons in H. simpl in H.
    rewrite string_length_append in H. lia.
  - apply (f_equal String.length) in H.
    rewrite append_nil_l, append_cons in H. simpl in H.
    rewrite string_length_append in H. lia.
  - rewrite !append_cons in H. injection H as -> H. f_equal. by apply IH.
Qed.

(** X11: the prompt carries the existing content without loss: for the
    same project type, description and file path, two existing contents
    give the same prompt only if they are the same text. *)
Theorem prompt_determines_content (project_type description file_path : string)
    (c1 c2 : string) :
  build_prompt project_type description file_path c1 =
    build_prompt project_type description file_path c2 →
  c1 = c2.
Proof.
  unfold build_prompt. intros H.
  pose proof (prompt_text_verb _ _ _ _ _ _ _ H) as Hv. rewrite Hv in H.
  unfold prompt_text in H. do 18 apply append_inv_head in H.
  by apply append_inv_tail in H.
Qed.

(** ** The end of a run (lines 120-125) *)

Lemma setup_none_is_file (project_path : path) (w w1 : world) :
  setup_project git project_path w = (Ok None, w1) →
  ∃ c, stat (disk w) project_path = Some (File c).
Proof.
  rewrite setup_project_cases, prepare_directory_cases.
  destruct (stat (disk w) project_path) as [[|c]|].
  - by destruct (ensure_repository git project_path false w) as [[[]|e] w2].
  - by exists c.
  - destruct (mkdir_parents (disk w) project_path) as [e|d1]; [done|].
    match goal with
    | |- context [ensure_repository git project_path true ?w0] =>
        by destruct (ensure_repository git project_path true w0) as [[[]|e] w2]
    end.
Qed.

(** X12: when the function returns with the target a directory, every
    listed path outside [.git] holds a regular file at the end, given a
    [git] that keeps to its metadata. *)
Theorem completed_run_leaves_listed_files (project_path : path)
    (project_type description : string) (files : list string)
    (commit_message model : string) (w : world) :
  let m := create_or_modify_project llm git project_path project_type description files
             commit_message model in
  metadata_only git →
  (m w).1 = Ok tt →
  (∀ c, stat (disk w) project_path ≠ Some (File c)) →
  ∀ t, t ∈ targets project_path files →
    ¬ (project_path ++ [".git"]) `prefix_of` t →
    ∃ s, stat (disk (m w).2) t = Some (File s).
Proof.
  intros m Hmeta Hret Hdir t Ht Hgit. unfold m in *.
  rewrite create_or_modify_project_setup in Hret |- *.
  destruct (setup_project git project_path w) as [[[n|]|e] w0] eqn:Hsetup; [| |done].
  - unfold after_repository, mbind, M_bind, bind in Hret |- *.
    destruct (generate_files llm project_path project_type description model files w0)
      as [[[]|e] w3] eqn:Hloop; [|done].
    destruct (generate_files_written _ _ _ _ _ _ _ _ Hloop t Ht) as [Hne [s Hs]].
    rewrite commit_all_cases in Hret |- *. cbv zeta in Hret |- *.
    destruct (git _ git_add project_path (disk w3)).1; [|done].
    destruct (git _ (git_commit commit_message) project_path _).1; [|done].
    simpl. exists s. unfold stat. destruct t as [|x t]; [done|].
    by rewrite !Hmeta.
  - destruct (setup_none_is_file _ _ _ Hsetup) as [c Hc]. by destruct (Hdir c).
Qed.

(** X13: when [git add] exits with a non-zero status, the function raises
    [CalledProcessError] for it at line 122 with the disk that the command
    left, and [git commit] is not run. *)
Theorem add_failure_stops_commit (project_path : path)
    (project_type description : string) (files : list string)
    (commit_message model : string) (w w0 w1 : world) (n : bool) :
  let m := create_or_modify_project llm git project_path project_type description files
             commit_message model in
  let l1 := log w1 ++ [EPrint ((nl +:+ "添加文件到Git并提交...") +:+ nl)] in
  setup_project git project_path w = (Ok (Some n), w0) →
  generate_files llm project_path project_type description model files w0 = (Ok tt, w1) →
  (git l1 git_add project_path (disk w1)).1 = false →
  m w = (Raise (CalledProcessError git_add),
         World (git l1 git_add project_path (disk w1)).2 (l1 ++ [ERun git_add project_path]))
  ∧ runs_of (git_commit commit_message) (effects (trace m w)) = 0.
Proof.
  intros m l1 Hsetup Hloop Hadd.
  assert (Hm : m w = (Raise (CalledProcessError git_add),
                      World (git l1 git_add project_path (disk w1)).2
                        (l1 ++ [ERun git_add project_path]))).
  { unfold m. rewrite create_or_modify_project_setup, Hsetup.
    unfold after_repository. unfold mbind at 1. unfold M_bind, bind.
    rewrite Hloop. unfold mbind at 1. unfold M_bind, bind.
    rewrite commit_all_cases. cbv zeta. fold l1. by rewrite Hadd. }
  split; [done|].
  destruct (setup_project_log _ _ _ _ _ Hsetup) as (l0 & Hl0 & He0).
  destruct (generate_files_summary llm project_path project_type description model
              files w0) as (l & Hl & _ & _ & He).
  rewrite Hloop in Hl, He. simpl in Hl, He.
  rewrite (trace_of _ _ (l0 ++ l ++ [EPrint ((nl +:+ "添加文件到Git并提交...") +:+ nl);
                                     ERun git_add project_path])).
  - rewrite !effects_app, He, !runs_of_app, runs_of_writes. simpl.
    assert (Hadd' : runs_of (git_commit commit_message) [Ran git_add project_path] = 0).
    { unfold runs_of. simpl. done. }
    rewrite Hadd'.
    destruct He0 as [->| ->]; [done|].
    unfold runs_of. simpl. done.
  - rewrite Hm. simpl. unfold l1. by rewrite Hl, Hl0, <- !app_assoc.
Qed.

(** ** What a turn looks at (lines 79-95) *)


(** X15: the loop opens for reading only listed paths: the content of no
    other file is looked at. *)
Theorem loop_reads_only_listed_files (project_path : path)
    (project_type description model : string) (files : list string) (w : world) (q : path) :
  ERead q ∈ trace (generate_files llm project_path project_type description model files) w →
  q ∈ targets project_path files.
Proof.
  destruct (generate_files_summary llm project_path project_type description model files w)
    as (l & Hl & Hw & _ & _).
  rewrite (trace_of _ _ _ Hl). rewrite Forall_forall in Hw.
  intros Hin. apply (Hw _ Hin).
Qed.

(** X16: when the stream of a turn breaks, the turn raises after having
    echoed every fragment received so far, and writes nothing: what is at
    the path of the file is what was there before the turn.  The turn is
    one that gets to its request: the path has no [..], its parent can be
    made, and it holds nothing or a file whose bytes are UTF-8. *)
Theorem broken_stream_echoes_but_keeps_file (project_path : path)
    (project_type description model file_path : string) (w : world)
    (d1 : gmap path node) (chunks : list chunk) :
  let full_path := joinpath project_path file_path in
  let turn := generate_file llm project_path project_type description model file_path in
  dotdot_free full_path = true →
  mkdir_parents (disk w) (parent full_path) = inr d1 →
  readable (stat (disk w) full_path) = true →
  llm (log_before_request project_path file_path w (stat (disk w) full_path)) model
    (build_prompt project_type description file_path
       (prior_content (stat (disk w) full_path))) = Stream chunks false →
  (turn w).1 = Raise OpenAIError
  ∧ stat (disk (turn w).2) full_path = stat (disk w) full_path
  ∧ effects (trace turn w) = []
  ∧ ∃ start, printed (trace turn w) = start :: fragments chunks.
Proof.
  intros full_path turn _ Hmk Hread Hllm. unfold turn, trace.
  rewrite generate_file_cases. fold full_path.
  rewrite Hmk, (mkdir_parent_stat _ _ _ Hmk).
  assert (Hgo :
    (after_request llm project_path project_type description model file_path w d1
       (stat (disk w) full_path)).1 = Raise OpenAIError
    ∧ stat (disk (after_request llm project_path project_type description model
                    file_path w d1 (stat (disk w) full_path)).2) full_path
      = stat (disk w) full_path
    ∧ effects (drop (length (log w))
                 (log (after_request llm project_path project_type description model
                         file_path w d1 (stat (disk w) full_path)).2)) = []
    ∧ ∃ start,
        printed (drop (length (log w))
                   (log (after_request llm project_path project_type description model
                           file_path w d1 (stat (disk w) full_path)).2))
        = start :: fragments chunks).
  { unfold after_request. fold full_path. rewrite Hllm. simpl.
    unfold log_after_stream, log_before_request. fold full_path.
    rewrite <- !app_assoc, drop_app_length.
    assert (Heff : ∀ texts : list string, effects (map EPrint texts) = []).
    { induction texts; done. }
    split_and!.
    - done.
    - by apply mkdir_parent_stat.
    - rewrite !effects_app, Heff. by destruct (stat (disk w) full_path).
    - rewrite !printed_app, printed_prints.
      destruct (stat (disk w) full_path); simpl; by eexists. }
  destruct (stat (disk w) full_path) as [[|c]|]; [done | |].
  - simpl in *. by rewrite Hread.
  - done.
Qed.

(** ** A file that is no text (lines 82-83) *)

(** X17: a listed file that exists with bytes that are not UTF-8 stops
    its turn at line 83 with [UnicodeDecodeError]: the file was opened and
    read, but no request is sent and nothing is written, and the file
    keeps its bytes. *)
Theorem undecodable_file_raises_before_request (project_path : path)
    (project_type description model file_path : string) (w : world)
    (d1 : gmap path node) (c : string) :
  let full_path := joinpath project_path file_path in
  let turn := generate_file llm project_path project_type description model file_path in
  dotdot_free full_path = true →
  mkdir_parents (disk w) (parent full_path) = inr d1 →
  stat (disk w) full_path = Some (File c) →
  utf8_valid c = false →
  turn w = (Raise UnicodeDecodeError,
            World d1 (log w ++ [EMkdir (parent full_path); ERead full_path]))
  ∧ requests (trace turn w) = []
  ∧ effects (trace turn w) = []
  ∧ stat (disk (turn w).2) full_path = Some (File c).
Proof.
  intros full_path turn _ Hmk Hst Hbad.
  assert (Hturn : turn w = (Raise UnicodeDecodeError,
                    World d1 (log w ++ [EMkdir (parent full_path); ERead full_path]))).
  { unfold turn. rewrite generate_file_cases. fold full_path.
    rewrite Hmk, (mkdir_parent_stat _ _ _ Hmk), Hst. simpl. by rewrite Hbad. }
  unfold trace. rewrite Hturn. simpl. rewrite drop_app_length.
  split_and!; [done | done | done |].
  by rewrite (mkdir_parent_stat _ _ _ Hmk).
Qed.

End Further.

(** ** Concrete runs of the further properties *)

Lemma stream_echo_is_result_witness :
  concat_text (printed (trace (stream_completion hello_llm "gpt-4-turbo-preview" "hello")
                          fresh)) = "print(1)".
Proof.
  apply (stream_echo_is_result hello_llm "gpt-4-turbo-preview" "hello" fresh
           (stream_completion hello_llm "gpt-4-turbo-preview" "hello" fresh).2 "print(1)").
  vm_compute. reflexivity.
Defined.

Lemma blocked_target_raises_witness :
  exit_status (script hello_llm plain_git (Some "sk-test") demo_args
                 (World blocked_disk [])).1 = 1%Z.
Proof.
  apply (blocked_target_raises hello_llm plain_git (Some "sk-test") demo_args
           (World blocked_disk []) ["work"] "x").
  - reflexivity.
  - reflexivity.
  - by exists ["demo"].
  - reflexivity.
Defined.

Lemma directory_as_file_raises_witness :
  requests (trace (generate_file hello_llm ["work"; "demo"] "python" "a script"
                     "gpt-4-turbo-preview" ".") (World versioned_disk [])) = [].
Proof.
  apply (directory_as_file_raises hello_llm ["work"; "demo"] "python" "a script"
           "gpt-4-turbo-preview" "." (World versioned_disk [])).
  reflexivity.
Defined.

Lemma file_under_regular_file_raises_witness :
  trace (generate_file hello_llm ["work"] "python" "a script" "gpt-4-turbo-preview"
           "demo/a.py") (World disk_with_file []) = [].
Proof.
  apply (file_under_regular_file_raises hello_llm ["work"] "python" "a script"
           "gpt-4-turbo-preview" "demo/a.py" (World disk_with_file [])
           ["work"; "demo"] "notes").
  - by exists [].
  - reflexivity.
Defined.

Lemma setup_twice_is_setup_once_witness :
  setup_project plain_git ["work"; "demo"] after_setup = (Ok (Some false), after_setup).
Proof.
  apply (setup_twice_is_setup_once plain_git ["work"; "demo"] fresh after_setup true
           plain_git_metadata_only plain_git_init).
  vm_compute. reflexivity.
Defined.

Lemma init_failure_stops_before_generation_witness :
  let m := create_or_modify_project hello_llm init_fails_git ["work"; "demo"] "python"
             "a script" ["main.py"] "init" "gpt-4-turbo-preview" in
  (m fresh).1 = Raise (CalledProcessError git_init)
  ∧ requests (trace m fresh) = []
  ∧ effects (trace m fresh) = [Ran git_init ["work"; "demo"]].
Proof.
  apply (init_failure_stops_before_generation hello_llm init_fails_git ["work"; "demo"]
           "python" "a script" ["main.py"] "init" "gpt-4-turbo-preview" fresh).
  - reflexivity.
  - intros h d. reflexivity.
Defined.

Lemma one_request_per_file_witness :
  let m := create_or_modify_project hello_llm plain_git ["work"; "demo"] "python"
             "a script" ["main.py"; "README.md"] "init" "gpt-4-turbo-preview" in
  length (requests (trace m fresh)) = 2.
Proof.
  intros m.
  apply (proj2 (proj2 (one_request_per_file hello_llm plain_git ["work"; "demo"] "python"
                         "a script" ["main.py"; "README.md"] "init"
                         "gpt-4-turbo-preview" fresh))).
  - vm_compute. reflexivity.
  - intros c. vm_compute. discriminate.
Defined.

Lemma second_turn_sees_first_output_witness :
  ∃ s, EWrite ["work"; "demo"; "main.py"] s
         ∈ trace (generate_file hello_llm ["work"; "demo"] "python" "a script"
                    "gpt-4-turbo-preview" "main.py") fresh
       ∧ (no_carriage_return s = true →
          requests (trace (generate_file hello_llm ["work"; "demo"] "python" "a script"
                             "gpt-4-turbo-preview" "main.py")
                      (generate_file hello_llm ["work"; "demo"] "python" "a script"
                         "gpt-4-turbo-preview" "main.py" fresh).2) =
            if utf8_valid s
            then [("gpt-4-turbo-preview", build_prompt "python" "a script" "main.py" s)]
            else [])
       ∧ (s ≠ EmptyString →
          build_prompt "python" "a script" "main.py" s =
            prompt_text "python" Modify "a script" "main.py" s).
Proof.
  apply (second_turn_sees_first_output hello_llm ["work"; "demo"] "python" "a script"
           "gpt-4-turbo-preview" "main.py" fresh
           (generate_file hello_llm ["work"; "demo"] "python" "a script"
              "gpt-4-turbo-preview" "main.py" fresh).2).
  vm_compute. reflexivity.
Defined.

Lemma listed_files_exist_after_loop_witness :
  ∃ s, stat (disk (generate_files hello_llm ["work"; "demo"] "python" "a script"
                     "gpt-4-turbo-preview" ["a.py"; "b.py"] fresh).2)
         ["work"; "demo"; "b.py"] = Some (File s).
Proof.
  apply (listed_files_exist_after_loop hello_llm ["work"; "demo"] "python" "a script"
           "gpt-4-turbo-preview" ["a.py"; "b.py"] fresh
           (generate_files hello_llm ["work"; "demo"] "python" "a script"
              "gpt-4-turbo-preview" ["a.py"; "b.py"] fresh).2).
  - vm_compute. reflexivity.
  - apply list_elem_of_further, list_elem_of_here.
Defined.

Lemma prompt_determines_content_witness : "draft" = "draft".
Proof.
  apply (prompt_determines_content "python" "a script" "notes.md" "draft" "draft").
  reflexivity.
Defined.

Lemma completed_run_leaves_listed_files_witness :
  ∃ s, stat (disk (create_or_modify_project hello_llm plain_git ["work"; "demo"] "python"
                     "a script" ["main.py"] "init" "gpt-4-turbo-preview" fresh).2)
         ["work"; "demo"; "main.py"] = Some (File s).
Proof.
  apply (completed_run_leaves_listed_files hello_llm plain_git ["work"; "demo"] "python"
           "a script" ["main.py"] "init" "gpt-4-turbo-preview" fresh
           plain_git_metadata_only).
  - vm_compute. reflexivity.
  - intros c. vm_compute. discriminate.
  - apply list_elem_of_here.
  - intros [k Hk]. discriminate Hk.
Defined.

Lemma add_failure_stops_commit_witness :
  let m := create_or_modify_project hello_llm add_fails_git ["work"; "demo"] "python"
             "a script" ["a.py"] "init" "gpt-4-turbo-preview" in
  (m fresh).1 = Raise (CalledProcessError git_add)
  ∧ runs_of (git_commit "init") (effects (trace m fresh)) = 0.
Proof.
  intros m.
  assert (H0 : setup_project add_fails_git ["work"; "demo"] fresh
               = (Ok (Some true), (setup_project add_fails_git ["work"; "demo"] fresh).2))
    by (vm_compute; reflexivity).
  assert (H1 : generate_files hello_llm ["work"; "demo"] "python" "a script"
                 "gpt-4-turbo-preview" ["a.py"]
                 (setup_project add_fails_git ["work"; "demo"] fresh).2
               = (Ok tt,
                  (generate_files hello_llm ["work"; "demo"] "python" "a script"
                     "gpt-4-turbo-preview" ["a.py"]
                     (setup_project add_fails_git ["work"; "demo"] fresh).2).2))
    by (vm_compute; reflexivity).
  destruct (add_failure_stops_commit hello_llm add_fails_git ["work"; "demo"] "python"
              "a script" ["a.py"] "init" "gpt-4-turbo-preview" fresh _ _ true H0 H1)
    as [Hm Hc]; [reflexivity|].
  split; [exact (f_equal fst Hm) | exact Hc].
Defined.


Lemma loop_reads_only_listed_files_witness :
  ["work"; "demo"; "notes.md"] ∈ targets ["work"; "demo"] ["notes.md"].
Proof.
  apply (loop_reads_only_listed_files hello_llm ["work"; "demo"] "python" "a script"
           "gpt-4-turbo-preview" ["notes.md"] (World versioned_disk [])).
  vm_compute. apply list_elem_of_further, list_elem_of_here.
Defined.

Lemma broken_stream_echoes_but_keeps_file_witness :
  let turn := generate_file broken_llm ["work"; "demo"] "python" "a script"
                "gpt-4-turbo-preview" "notes.md" in
  (turn (World versioned_disk [])).1 = Raise OpenAIError
  ∧ stat (disk (turn (World versioned_disk [])).2) ["work"; "demo"; "notes.md"]
    = Some (File "draft")
  ∧ effects (trace turn (World versioned_disk [])) = []
  ∧ ∃ start, printed (trace turn (World versioned_disk [])) = [start; "import "; "os"].
Proof.
  assert (H1 : mkdir_parents (disk (World versioned_disk []))
                 (parent (joinpath ["work"; "demo"] "notes.md")) = inr versioned_disk)
    by reflexivity.
  assert (H2 : readable (stat (disk (World versioned_disk []))
                           (joinpath ["work"; "demo"] "notes.md")) = true)
    by reflexivity.
  exact (broken_stream_echoes_but_keeps_file broken_llm ["work"; "demo"] "python"
           "a script" "gpt-4-turbo-preview" "notes.md" (World versioned_disk [])
           versioned_disk [text_chunk "import "; text_chunk "os"] eq_refl H1 H2 eq_refl).
Defined.

Lemma undecodable_file_raises_before_request_witness :
  let turn := generate_file hello_llm ["work"; "demo"] "python" "a script"
                "gpt-4-turbo-preview" "logo.png" in
  (turn (World binary_disk [])).1 = Raise UnicodeDecodeError
  ∧ requests (trace turn (World binary_disk [])) = []
  ∧ stat (disk (turn (World binary_disk [])).2) ["work"; "demo"; "logo.png"]
    = Some (File not_text).
Proof.
  assert (H1 : mkdir_parents (disk (World binary_disk []))
                 (parent (joinpath ["work"; "demo"] "logo.png")) = inr binary_disk)
    by reflexivity.
  destruct (undecodable_file_raises_before_request hello_llm ["work"; "demo"] "python"
              "a script" "gpt-4-turbo-preview" "logo.png" (World binary_disk [])
              binary_disk not_text eq_refl H1 eq_refl eq_refl)
    as (Hturn & Hreq & _ & Hst).
  split_and!; [exact (f_equal fst Hturn) | exact Hreq | exact Hst].
Defined.
